(** * online-edit-web: the WebContainer store and the terminal panel

    A shallow embedding of [src/store/webContainerStore.tsx] (the zustand
    store with [initWebContainer]) and of the terminal panel component
    (the [TerminalPanel] function component with [executeAutoCommands]).

    The code is orchestration: it calls into the WebContainer SDK, into
    localforage, into xterm.js and into the browser.  Every such call is an
    [event] of the model; the calls whose answer the code looks at take that
    answer from an abstract outside world ([Runtime]), so that every theorem
    holds whatever the libraries answer.  A computation returns its result
    (a value or a thrown exception), the state after it, and the list of the
    events it performed, oldest first.

    An asynchronous function gives way at each [await].  [initWebContainer],
    [init] and [executeAutoCommands] run a call from its first statement to
    its last; [initWebContainer] is also given cut at its first [await],
    right after it has read the store, and [init] cut at the [await] of the
    spawn of the shell, so that another call, or the cleanup of the effect,
    can be run in the cut.  A call that the code awaits may be rejected,
    and so may the parsing of the cached project; the methods of a terminal,
    of the streams and of the console do not throw, a method called on the
    terminal variable when it is [null] does, and a promise that the code
    does not await ([pipeTo], [fs.rm]) cannot throw into it. *)

From Stdlib Require Import String List ZArith Bool Arith Lia.
Import ListNotations.
Local Open Scope string_scope.
Local Open Scope list_scope.

(** ** Values *)

(** Object identities handed out by the libraries. *)
Definition container := nat.   (* a WebContainer *)
Definition process := nat.     (* a WebContainerProcess *)
Definition term := nat.        (* an xterm Terminal *)

(** A thrown JavaScript value, reduced to its message. *)
Definition error := string.

Inductive res (A : Type) : Type :=
| Ok (a : A)
| Throw (e : error).
Arguments Ok {A} a.
Arguments Throw {A} e.

Definition is_some {A} (o : option A) : bool :=
  match o with Some _ => true | None => false end.

(** JavaScript truthiness of a string: the empty string is falsy. *)
Definition truthy_string (s : string) : bool :=
  match s with EmptyString => false | String _ _ => true end.

(** Truthiness of what [localforage.getItem] resolved to ([null] or a
    string). *)
Definition truthy_item (v : option string) : bool :=
  match v with Some s => truthy_string s | None => false end.

(** The functions handed to the libraries as listeners and sinks; the tag
    names the closure, [run_callback] below gives its body. *)
Inductive callback : Type :=
| CbServerReady            (* store, line 45: logs 'server-ready', set({ url }) *)
| CbServerReady11          (* store, line 77: logs 'server-ready11', set({ url }) *)
| CbWindowResize           (* panel: the window 'resize' handler *)
| CbShellOutput            (* panel: write(data) { terminal?.write(data) } *)
| CbTerminalData (input : process)  (* panel: (data) => input.write(data) *)
| CbCommandOutput (t : term).       (* executeAutoCommands: write(data) { terminal.write(data) } *)

(** The lines [executeAutoCommands] prints, by the place that prints them. *)
Inductive description_text : Type :=
| InstallingDependencies   (* the description of 'pnpm install' *)
| StartingDevServer.       (* the description of 'pnpm dev' *)

Inductive message : Type :=
| MsgWaitingForDirectory                           (* line 56, cyan *)
| MsgDirectoryReady                                (* line 63, green *)
| MsgDirectoryNotFound                             (* line 75, red *)
| MsgAutoStartBegins                               (* line 111, cyan *)
| MsgDescription (d : description_text)                (* line 116, yellow *)
| MsgCommandLine (command : string) (args : list string)  (* line 118, grey *)
| MsgCommandFailed (exitCode : Z)                  (* line 171, red *)
| MsgDone                                          (* line 177, green *)
| MsgServiceStarted                                (* line 180, green *)
| MsgAutoStartComplete                             (* line 185, cyan *)
| MsgAutoStartFailed (e : error).                  (* line 190, red *)

(** The red lines are the error messages. *)
Definition is_error_message (m : message) : bool :=
  match m with
  | MsgDirectoryNotFound | MsgCommandFailed _ | MsgAutoStartFailed _ => true
  | _ => false
  end.

(** The options object of [spawn]: [{ cwd }] or [{ terminal: { cols, rows } }]. *)
Record spawn_options : Type := {
  cwd : option string;
  terminal_size : option (option nat * option nat)
}.

(** [WebContainerState] of the store. *)
Record WebContainerState : Type := {
  webContainerInstance : option container;
  isInitialized : bool;
  url : string
}.

(** The argument of zustand's [set]: the fields it names. *)
Record patch : Type := {
  set_webContainerInstance : option (option container);
  set_isInitialized : option bool;
  set_url : option string
}.

(** [set] merges the named fields into the state. *)
Definition merge (p : patch) (st : WebContainerState) : WebContainerState :=
  {| webContainerInstance :=
       match set_webContainerInstance p with
       | Some i => i
       | None => webContainerInstance st
       end;
     isInitialized :=
       match set_isInitialized p with
       | Some b => b
       | None => isInitialized st
       end;
     url :=
       match set_url p with
       | Some u => u
       | None => url st
       end |}.

Section Model.

(** The type of a directory tree as [writeDirByLocal] takes it
    ([projectFileData], [curDirectory]); it is declared in [@/utils]. *)
Context {dirdata : Type}.

(** ** Events *)

Inductive event : Type :=
| EvGetItem (key : string) (r : res (option string))
| EvConsoleLog (tag : string)
| EvConsoleError (e : error)
| EvBoot (r : res container)
| EvWriteDir (d : dirdata) (target : option container) (r : res unit)
| EvOn (c : container) (name : string) (cb : callback)
| EvSet (p : patch)
| EvImport (module : string) (r : res unit)
| EvNewTerminal (t : term)
| EvLoadAddon (t : term) (addon : string)
| EvOpen (t : term)
| EvFit
| EvSpawn (c : container) (command : string) (args : list string)
          (o : spawn_options) (r : res process)
| EvAddEventListener (name : string) (cb : callback)
| EvPipeTo (p : process) (sink : callback)
| EvGetWriter (p : process)
| EvOnData (t : term) (cb : callback)
| EvInputWrite (p : process) (data : string)
| EvTermWrite (t : term) (data : string)
| EvWriteln (t : term) (m : message)
| EvReaddir (c : container) (path : string) (r : res unit)
| EvSleep (ms : nat)
| EvExit (p : process) (r : res Z)
| EvRm (c : container) (path : string) (recursive : bool)
| EvKill (p : process)
| EvResize (p : process) (cols rows : option nat).

(** ** The outside world *)

Class Runtime (W : Type) : Type := {
  (* localforage.getItem(key): the stored string or null, or a rejection *)
  localforage_getItem : string -> W -> res (option string) * W;
  (* const { projectFileData } = JSON.parse(text) *)
  JSON_parse_projectFileData : string -> res dirdata;
  (* WebContainer.boot() *)
  WebContainer_boot : W -> res container * W;
  (* writeDirByLocal(dir, instance), from @/utils *)
  writeDirByLocal : dirdata -> option container -> W -> res unit * W;
  (* the binding curDirectory of @/utils; None when it is falsy *)
  curDirectory : W -> option dirdata;
  (* await import(module) *)
  dynamic_import : string -> W -> res unit * W;
  (* new Terminal(options) *)
  new_Terminal : W -> term * W;
  (* terminal.cols and terminal.rows *)
  terminal_cols : term -> W -> nat;
  terminal_rows : term -> W -> nat;
  (* instance.spawn(command, args, options) *)
  spawn : container -> string -> list string -> spawn_options -> W -> res process * W;
  (* instance.fs.readdir(path) *)
  fs_readdir : container -> string -> W -> res unit * W;
  (* await process.exit *)
  process_exit : process -> W -> res Z * W;
  (* what a call without a looked-at answer does to the world *)
  react : event -> W -> W
}.

Context {W : Type} {RT : Runtime W}.

(** ** State *)

(** The variables of one render of [TerminalPanel]: the instance read from
    the store by that render, the two refs and the [let] variables its
    closures share. *)
Record Panel : Type := {
  captured_instance : option container;  (* webContainerInstance of the render *)
  terminalRef : bool;                    (* terminalRef.current is mounted *)
  shell : option process;                (* shell.current *)
  terminal : option term;
  fitAddon : bool;                       (* assigned *)
  webLinksAddon : bool;
  webglAddon : bool
}.

Record state : Type := {
  world : W;
  store : WebContainerState;
  panel : Panel
}.

Definition with_world (s : state) (w : W) : state :=
  {| world := w; store := store s; panel := panel s |}.
Definition with_store (s : state) (st : WebContainerState) : state :=
  {| world := world s; store := st; panel := panel s |}.
Definition with_panel (s : state) (p : Panel) : state :=
  {| world := world s; store := store s; panel := p |}.

(** The store as [create] builds it (lines 22-24). *)
Definition initial_store : WebContainerState :=
  {| webContainerInstance := None; isInitialized := false; url := "" |}.

(** ** The monad of the model *)

Definition M (A : Type) : Type := state -> res A * state * list event.

Definition ret {A} (a : A) : M A := fun s => (Ok a, s, []).

Definition bind {A B} (m : M A) (k : A -> M B) : M B :=
  fun s =>
    match m s with
    | (Ok a, s1, t1) =>
        match k a s1 with
        | (r, s2, t2) => (r, s2, t1 ++ t2)
        end
    | (Throw e, s1, t1) => (Throw e, s1, t1)
    end.

(** The three parts of a run. *)
Definition run_result {A} (m : M A) (s : state) : res A := fst (fst (m s)).
Definition run_state {A} (m : M A) (s : state) : state := snd (fst (m s)).
Definition run_trace {A} (m : M A) (s : state) : list event := snd (m s).

(** [try { body } catch (e) { handler e }] *)
Definition try_catch {A} (body : M A) (handler : error -> M A) : M A :=
  fun s =>
    match body s with
    | (Ok a, s1, t1) => (Ok a, s1, t1)
    | (Throw e, s1, t1) =>
        match handler e s1 with
        | (r, s2, t2) => (r, s2, t1 ++ t2)
        end
    end.

Notation "x <- m ;; k" := (bind m (fun x => k))
  (at level 61, m at next level, right associativity).
Notation "m ;; k" := (bind m (fun _ => k))
  (at level 61, right associativity).

(** A call whose answer the code awaits or reads. *)
Definition call {A} (op : W -> res A * W) (ev : res A -> event) : M A :=
  fun s => match op (world s) with
           | (r, w) => (r, with_world s w, [ev r])
           end.

(** A call made for its effect only. *)
Definition emit (e : event) : M unit :=
  fun s => (Ok tt, with_world s (react e (world s)), [e]).

Definition get_store : M WebContainerState := fun s => (Ok (store s), s, []).
Definition get_panel : M Panel := fun s => (Ok (panel s), s, []).
Definition get_world : M W := fun s => (Ok (world s), s, []).
Definition set (p : patch) : M unit :=
  fun s => (Ok tt, with_store s (merge p (store s)), [EvSet p]).
Definition set_panel (f : Panel -> Panel) : M unit :=
  fun s => (Ok tt, with_panel s (f (panel s)), []).

Definition console_log (tag : string) : M unit := emit (EvConsoleLog tag).
Definition console_error (e : error) : M unit := emit (EvConsoleError e).

(** A pure step that may throw. *)
Definition lift_res {A} (r : res A) : M A := fun s => (r, s, []).

(** [throw e] *)
Definition throw {A} (e : error) : M A := fun s => (Throw e, s, []).

(** ** The store: [useWebContainerStore] *)

(** [set({ url })], also the body of the action [setUrl]. *)
Definition setUrl (u : string) : M unit :=
  set {| set_webContainerInstance := None; set_isInitialized := None;
         set_url := Some u |}.

Definition setInitialized (b : bool) : M unit :=
  set {| set_webContainerInstance := None; set_isInitialized := Some b;
         set_url := None |}.

(** [{ webContainerInstance: i, isInitialized: true }] *)
Definition instance_initialized (i : option container) : patch :=
  {| set_webContainerInstance := Some i; set_isInitialized := Some true;
     set_url := None |}.

(** [if (projectInfo) { const { projectFileData } = JSON.parse(projectInfo);
    console.log(tag, projectFileData); await writeDirByLocal(projectFileData, target) }] *)
Definition write_cached_project (projectInfo : option string) (tag : string)
    (target : option container) : M unit :=
  match projectInfo with
  | Some text =>
      if truthy_string text then
        projectFileData <- lift_res (JSON_parse_projectFileData text) ;;
        console_log tag ;;
        call (writeDirByLocal projectFileData target)
             (EvWriteDir projectFileData target)
      else ret tt
  | None => ret tt
  end.

(** [if (curDirectory) { console.log(tag, curDirectory);
    await writeDirByLocal(curDirectory, target) }] *)
Definition write_current_directory (tag : string) (target : option container)
    : M unit :=
  w <- get_world ;;
  match curDirectory w with
  | Some d =>
      console_log tag ;;
      call (writeDirByLocal d target) (EvWriteDir d target)
  | None => ret tt
  end.

(** [!isInitialized && !webContainerInstance], line 30. *)
Definition needs_boot (st : WebContainerState) : bool :=
  negb (isInitialized st) && negb (is_some (webContainerInstance st)).

(** [initWebContainer(projectId = '')], lines 25-98. *)
Definition initWebContainer (projectId : option string) : M unit :=
  let key := match projectId with Some k => k | None => "" end in
  st <- get_store ;;
  projectInfo <- call (localforage_getItem key) (EvGetItem key) ;;
  console_log "projectInfo" ;;
  if needs_boot st then
    newWebContainerInstance <- call WebContainer_boot EvBoot ;;
    console_log "newWebContainerInstance" ;;
    write_cached_project projectInfo "projectFileData"
                         (Some newWebContainerInstance) ;;
    write_current_directory "curDirectory" (Some newWebContainerInstance) ;;
    emit (EvOn newWebContainerInstance "server-ready" CbServerReady) ;;
    set (instance_initialized (Some newWebContainerInstance))
  else
    write_cached_project projectInfo "projectFileData1"
                         (webContainerInstance st) ;;
    write_current_directory "curDirectory1" (webContainerInstance st) ;;
    match webContainerInstance st with
    | Some c => emit (EvOn c "server-ready" CbServerReady11)
    | None => ret tt
    end ;;
    set (instance_initialized (webContainerInstance st)).

(** The listener bodies: [console.log(tag, port, url); set({ url })]. *)
Definition serverReadyListener (tag : string) (port : nat) (u : string) : M unit :=
  console_log tag ;;
  setUrl u.

(** Calls made one after the other, each awaited. *)
Fixpoint initWebContainer_calls (projectIds : list (option string)) : M unit :=
  match projectIds with
  | [] => ret tt
  | p :: rest => initWebContainer p ;; initWebContainer_calls rest
  end.

(** ** The terminal panel: [executeAutoCommands] *)

Definition maxRetries : nat := 50.
Definition retryInterval : nat := 200.

Record command_entry : Type := {
  command : string;
  args : list string;
  waitForExit : bool;
  description : description_text
}.

(** The array [commands], lines 90-103. *)
Definition commands : list command_entry :=
  [ {| command := "pnpm"; args := ["install"]; waitForExit := true;
       description := InstallingDependencies |};
    {| command := "pnpm"; args := ["dev"]; waitForExit := false;
       description := StartingDevServer |} ].

(** One round of the loop of lines 58-70; the result is [reactDirExists]
    after the round ([true] is the [break]). *)
Definition probe_react_dir (c : container) (t : term) : M bool :=
  try_catch
    (call (fs_readdir c "/react") (EvReaddir c "/react") ;;
     emit (EvWriteln t MsgDirectoryReady) ;;
     ret true)
    (fun _ =>
       console_log "Directory does not exist, retrying..." ;;
       emit (EvSleep retryInterval) ;;
       ret false).

(** [for (let i = 0; i < maxRetries; i++)], by the number of rounds still
    to run. *)
Fixpoint wait_for_react_dir (c : container) (t : term) (rounds : nat) : M bool :=
  match rounds with
  | 0 => ret false
  | S rounds' =>
      found <- probe_react_dir c t ;;
      if found then ret true else wait_for_react_dir c t rounds'
  end.

(** How a block ends: by falling through, or by [return]. *)
Inductive flow : Type := Continue | Return.

(** The body of the loop over [commands], lines 114-182. *)
Definition run_command (c : container) (t : term) (cmd : command_entry) : M flow :=
  emit (EvWriteln t (MsgDescription (description cmd))) ;;
  emit (EvWriteln t (MsgCommandLine (command cmd) (args cmd))) ;;
  let o := {| cwd := Some "/react"; terminal_size := None |} in
  p <- call (spawn c (command cmd) (args cmd) o)
            (EvSpawn c (command cmd) (args cmd) o) ;;
  emit (EvPipeTo p (CbCommandOutput t)) ;;
  if waitForExit cmd then
    exitCode <- call (process_exit p) (EvExit p) ;;
    if negb (exitCode =? 0)%Z then
      emit (EvWriteln t (MsgCommandFailed exitCode)) ;;
      ret Return
    else
      emit (EvWriteln t MsgDone) ;;
      ret Continue
  else
    emit (EvWriteln t MsgServiceStarted) ;;
    ret Continue.

Fixpoint run_commands (c : container) (t : term) (cmds : list command_entry)
    : M flow :=
  match cmds with
  | [] => ret Continue
  | cmd :: rest =>
      f <- run_command c t cmd ;;
      match f with
      | Return => ret Return
      | Continue => run_commands c t rest
      end
  end.

(** [executeAutoCommands(webContainerInstance, terminal)], lines 37-193. *)
Definition executeAutoCommands (c : container) (t : term) : M unit :=
  try_catch
    (emit (EvWriteln t MsgWaitingForDirectory) ;;
     reactDirExists <- wait_for_react_dir c t maxRetries ;;
     if negb reactDirExists then
       emit (EvWriteln t MsgDirectoryNotFound)
     else
       emit (EvWriteln t MsgAutoStartBegins) ;;
       f <- run_commands c t commands ;;
       match f with
       | Return => ret tt
       | Continue => emit (EvWriteln t MsgAutoStartComplete)
       end)
    (fun e =>
       console_error e ;;
       emit (EvWriteln t (MsgAutoStartFailed e))).

(** What a method call on [null] throws. *)
Definition TypeError : error := "TypeError".

(** [executeAutoCommands(webContainerInstance, terminal)] as [init] calls
    it, with the variable [terminal], which the cleanup sets to [null].  On
    [null] the first statement of the [try], [terminal.writeln] of line 56,
    throws; the [catch] of line 186 logs the error, and its own
    [terminal.writeln] (line 189) throws again, out of the function. *)
Definition executeAutoCommands_on (c : container) (terminal : option term)
    : M unit :=
  match terminal with
  | Some t => executeAutoCommands c t
  | None =>
      try_catch (throw TypeError)
                (fun e => console_error e ;; throw TypeError)
  end.

(** ** The terminal panel: [TerminalPanel] *)

Definition set_terminal (t : option term) : M unit :=
  set_panel (fun p =>
    {| captured_instance := captured_instance p; terminalRef := terminalRef p;
       shell := shell p; terminal := t; fitAddon := fitAddon p;
       webLinksAddon := webLinksAddon p; webglAddon := webglAddon p |}).

Definition set_shell (sh : option process) : M unit :=
  set_panel (fun p =>
    {| captured_instance := captured_instance p; terminalRef := terminalRef p;
       shell := sh; terminal := terminal p; fitAddon := fitAddon p;
       webLinksAddon := webLinksAddon p; webglAddon := webglAddon p |}).

(** [fitAddon = new FitAddon(); webLinksAddon = new WebLinksAddon();
    webglAddon = new WebglAddon()] *)
Definition set_addons : M unit :=
  set_panel (fun p =>
    {| captured_instance := captured_instance p; terminalRef := terminalRef p;
       shell := shell p; terminal := terminal p; fitAddon := true;
       webLinksAddon := true; webglAddon := true |}).

(** [new Terminal({ ... })] *)
Definition create_terminal : M term :=
  fun s => match new_Terminal (world s) with
           | (t, w) => (Ok t, with_world s w, [EvNewTerminal t])
           end.

(** [{ cols: terminal?.cols, rows: terminal?.rows }] *)
Definition terminal_dimensions : M (option nat * option nat) :=
  p <- get_panel ;;
  w <- get_world ;;
  ret (option_map (fun t => terminal_cols t w) (terminal p),
       option_map (fun t => terminal_rows t w) (terminal p)).

(** The method [terminalResize] of the imperative handle. *)
Definition terminalResize : M unit :=
  p <- get_panel ;;
  match fitAddon p, shell p with
  | true, Some sh =>
      emit EvFit ;;
      size <- terminal_dimensions ;;
      emit (EvResize sh (fst size) (snd size))
  | _, _ => ret tt
  end.

(** The handler given to [window.addEventListener('resize', ...)]. *)
Definition windowResizeHandler : M unit :=
  p <- get_panel ;;
  match fitAddon p, shell p with
  | true, Some sh =>
      emit EvFit ;;
      size <- terminal_dimensions ;;
      emit (EvResize sh (fst size) (snd size))
  | _, _ => ret tt
  end.

(** The asynchronous function [init] of the effect.  The repository holds
    two copies of the component; they are the same but for the last
    statement, [await executeAutoCommands(webContainerInstance, terminal)],
    which only one of them has: [auto] says whether it is there.  The
    terminal created is assigned to the variable [terminal], and the
    variable is read again for [terminal?.onData] (line 580) and for the
    argument of [executeAutoCommands] (line 599). *)
Definition init (auto : bool) : M unit :=
  call (dynamic_import "xterm") (EvImport "xterm") ;;
  call (dynamic_import "xterm-addon-fit") (EvImport "xterm-addon-fit") ;;
  call (dynamic_import "xterm-addon-web-links") (EvImport "xterm-addon-web-links") ;;
  call (dynamic_import "xterm-addon-webgl") (EvImport "xterm-addon-webgl") ;;
  set_addons ;;
  p <- get_panel ;;
  match captured_instance p with
  | Some c =>
      if terminalRef p && negb (is_some (terminal p)) then
        t <- create_terminal ;;
        set_terminal (Some t) ;;
        emit (EvLoadAddon t "fit") ;;
        emit (EvLoadAddon t "web-links") ;;
        emit (EvLoadAddon t "webgl") ;;
        emit (EvOpen t) ;;
        emit EvFit ;;
        size <- terminal_dimensions ;;
        let o := {| cwd := None; terminal_size := Some size |} in
        sh <- call (spawn c "jsh" [] o) (EvSpawn c "jsh" [] o) ;;
        set_shell (Some sh) ;;
        emit (EvAddEventListener "resize" CbWindowResize) ;;
        emit (EvPipeTo sh CbShellOutput) ;;
        emit (EvGetWriter sh) ;;
        vars <- get_panel ;;
        match terminal vars with
        | Some t' => emit (EvOnData t' (CbTerminalData sh))
        | None => ret tt
        end ;;
        if auto then executeAutoCommands_on c (terminal vars) else ret tt
      else ret tt
  | None => ret tt
  end.

(** The function the effect returns, lines 617-676. *)
Definition cleanup : M unit :=
  p <- get_panel ;;
  match captured_instance p with
  | Some c => emit (EvRm c "/" true)
  | None => ret tt
  end ;;
  match shell p with
  | Some sh => emit (EvKill sh)
  | None => ret tt
  end ;;
  setUrl "" ;;
  set_terminal None.

(** What a library passes to a callback. *)
Inductive callback_argument : Type :=
| NoArgument
| Chunk (data : string)
| ServerReady (port : nat) (u : string).

(** The bodies of the callbacks. *)
Definition run_callback (cb : callback) (a : callback_argument) : M unit :=
  match cb, a with
  | CbServerReady, ServerReady port u => serverReadyListener "server-ready" port u
  | CbServerReady11, ServerReady port u => serverReadyListener "server-ready11" port u
  | CbWindowResize, _ => windowResizeHandler
  | CbShellOutput, Chunk data =>
      p <- get_panel ;;
      match terminal p with
      | Some t => emit (EvTermWrite t data)
      | None => ret tt
      end
  | CbTerminalData input, Chunk data => emit (EvInputWrite input data)
  | CbCommandOutput t, Chunk data => emit (EvTermWrite t data)
  | _, _ => ret tt
  end.

(** A stream hands its chunks to the callback one by one. *)
Fixpoint deliver (cb : callback) (chunks : list string) : M unit :=
  match chunks with
  | [] => ret tt
  | data :: rest => run_callback cb (Chunk data) ;; deliver cb rest
  end.

(** ** The calls by segments

    [initWebContainer] cut at its first [await] (line 27) and [init] cut at
    the [await] of the spawn of the shell (line 474).  The segments read
    the store and the variables of the panel where the source reads them:
    the store once, by [get()] at line 26, before the first [await]; the
    variable [terminal] after the spawn has resolved. *)




(** [init] up to the [await] of line 474: the container and the process
    that the spawn resolved to, or nothing when [init] ended before. *)
Definition init_until_spawn : M (option (container * process)) :=
  call (dynamic_import "xterm") (EvImport "xterm") ;;
  call (dynamic_import "xterm-addon-fit") (EvImport "xterm-addon-fit") ;;
  call (dynamic_import "xterm-addon-web-links") (EvImport "xterm-addon-web-links") ;;
  call (dynamic_import "xterm-addon-webgl") (EvImport "xterm-addon-webgl") ;;
  set_addons ;;
  p <- get_panel ;;
  match captured_instance p with
  | Some c =>
      if terminalRef p && negb (is_some (terminal p)) then
        t <- create_terminal ;;
        set_terminal (Some t) ;;
        emit (EvLoadAddon t "fit") ;;
        emit (EvLoadAddon t "web-links") ;;
        emit (EvLoadAddon t "webgl") ;;
        emit (EvOpen t) ;;
        emit EvFit ;;
        size <- terminal_dimensions ;;
        let o := {| cwd := None; terminal_size := Some size |} in
        sh <- call (spawn c "jsh" [] o) (EvSpawn c "jsh" [] o) ;;
        ret (Some (c, sh))
      else ret None
  | None => ret None
  end.

(** [init] from the resolution of the spawn on, lines 474-599:
    [shell.current] is assigned, the resize handler and the streams are set
    up, with [terminal?.onData] on the variable as it is then, and the
    commands are run on that variable. *)
Definition init_after_spawn (auto : bool) (c : container) (sh : process)
    : M unit :=
  set_shell (Some sh) ;;
  emit (EvAddEventListener "resize" CbWindowResize) ;;
  emit (EvPipeTo sh CbShellOutput) ;;
  emit (EvGetWriter sh) ;;
  vars <- get_panel ;;
  match terminal vars with
  | Some t => emit (EvOnData t (CbTerminalData sh))
  | None => ret tt
  end ;;
  if auto then executeAutoCommands_on c (terminal vars) else ret tt.

(** [init] with the cleanup of the effect run while the spawn is awaited. *)
Definition init_with_cleanup_during_spawn (auto : bool) : M unit :=
  spawned_shell <- init_until_spawn ;;
  cleanup ;;
  match spawned_shell with
  | Some (c, sh) => init_after_spawn auto c sh
  | None => ret tt
  end.

(** ** Reading traces *)

(** The containers on which a listener for [name] was registered. *)
Definition listeners_on (name : string) (tr : list event) : list container :=
  flat_map (fun e => match e with
                     | EvOn c n _ => if String.eqb n name then [c] else []
                     | _ => []
                     end) tr.

(** The answers of the calls to [WebContainer.boot()]. *)
Definition boots (tr : list event) : list (res container) :=
  flat_map (fun e => match e with EvBoot r => [r] | _ => [] end) tr.

(** Whether [localforage.getItem] resolved. *)
Definition lookup_resolved (tr : list event) : bool :=
  existsb (fun e => match e with EvGetItem _ (Ok _) => true | _ => false end) tr.

(** The arguments of the calls to [set]. *)
Definition sets (tr : list event) : list patch :=
  flat_map (fun e => match e with EvSet p => [p] | _ => [] end) tr.

(** The probes of a directory, with their answers. *)
Definition probes (tr : list event) : list (string * res unit) :=
  flat_map (fun e => match e with EvReaddir _ path r => [(path, r)] | _ => [] end) tr.

(** The errors of the probes that were rejected. *)
Definition probe_errors (tr : list event) : list error :=
  flat_map (fun e => match e with EvReaddir _ _ (Throw x) => [x] | _ => [] end) tr.

(** The errors of the spawns and awaited exits that were rejected. *)
Definition command_errors (tr : list event) : list error :=
  flat_map (fun e => match e with
                     | EvSpawn _ _ _ _ (Throw x) | EvExit _ (Throw x) => [x]
                     | _ => []
                     end) tr.

(** The pauses, in milliseconds. *)
Definition sleeps (tr : list event) : list nat :=
  flat_map (fun e => match e with EvSleep ms => [ms] | _ => [] end) tr.

(** The processes that the spawns of [name] resolved to. *)
Definition spawned (name : string) (tr : list event) : list process :=
  flat_map (fun e => match e with
                     | EvSpawn _ cmd _ _ (Ok p) =>
                         if String.eqb cmd name then [p] else []
                     | _ => []
                     end) tr.

Definition is_process_event (e : event) : bool :=
  match e with
  | EvSpawn _ _ _ _ _ | EvExit _ _ => true
  | _ => false
  end.

(** The spawns and the awaited exits. *)
Definition process_events (tr : list event) : list event :=
  filter is_process_event tr.

Definition is_wiring (e : event) : bool :=
  match e with
  | EvPipeTo _ _ | EvOnData _ _ => true
  | _ => false
  end.

(** The streams connected: a [pipeTo] or an [onData]. *)
Definition wirings (tr : list event) : list event := filter is_wiring tr.

(** The error messages written to the terminal. *)
Definition error_messages (tr : list event) : list message :=
  flat_map (fun e => match e with
                     | EvWriteln _ m => if is_error_message m then [m] else []
                     | _ => []
                     end) tr.

(** The lines written to the terminal with [writeln]. *)
Definition lines (tr : list event) : list message :=
  flat_map (fun e => match e with EvWriteln _ m => [m] | _ => [] end) tr.

(** ** Shapes of traces *)

(** Seeding the file system from [d], when there is a [d]. *)
Definition seeding (tag : string) (d : option dirdata) (target : option container)
    (r : res unit) : list event :=
  match d with
  | Some d => [EvConsoleLog tag; EvWriteDir d target r]
  | None => []
  end.

(** The rounds of the wait loop that failed, one per error caught. *)
Definition failed_rounds (c : container) (errs : list error) : list event :=
  flat_map (fun e => [EvReaddir c "/react" (Throw e);
                      EvConsoleLog "Directory does not exist, retrying...";
                      EvSleep retryInterval]) errs.

Definition react_cwd : spawn_options :=
  {| cwd := Some "/react"; terminal_size := None |}.

(** What [executeAutoCommands] does from the first command on, by the
    answers of the container: the two spawns and the awaited exit. *)
Inductive command_phase (c : container) (t : term) : list event -> Prop :=
| install_spawn_throws e :
    command_phase c t
      [EvWriteln t (MsgDescription InstallingDependencies);
       EvWriteln t (MsgCommandLine "pnpm" ["install"]);
       EvSpawn c "pnpm" ["install"] react_cwd (Throw e);
       EvConsoleError e; EvWriteln t (MsgAutoStartFailed e)]
| install_exit_throws p1 e :
    command_phase c t
      [EvWriteln t (MsgDescription InstallingDependencies);
       EvWriteln t (MsgCommandLine "pnpm" ["install"]);
       EvSpawn c "pnpm" ["install"] react_cwd (Ok p1);
       EvPipeTo p1 (CbCommandOutput t);
       EvExit p1 (Throw e);
       EvConsoleError e; EvWriteln t (MsgAutoStartFailed e)]
| install_fails p1 exitCode :
    exitCode <> 0%Z ->
    command_phase c t
      [EvWriteln t (MsgDescription InstallingDependencies);
       EvWriteln t (MsgCommandLine "pnpm" ["install"]);
       EvSpawn c "pnpm" ["install"] react_cwd (Ok p1);
       EvPipeTo p1 (CbCommandOutput t);
       EvExit p1 (Ok exitCode);
       EvWriteln t (MsgCommandFailed exitCode)]
| dev_spawn_throws p1 e :
    command_phase c t
      [EvWriteln t (MsgDescription InstallingDependencies);
       EvWriteln t (MsgCommandLine "pnpm" ["install"]);
       EvSpawn c "pnpm" ["install"] react_cwd (Ok p1);
       EvPipeTo p1 (CbCommandOutput t);
       EvExit p1 (Ok 0%Z);
       EvWriteln t MsgDone;
       EvWriteln t (MsgDescription StartingDevServer);
       EvWriteln t (MsgCommandLine "pnpm" ["dev"]);
       EvSpawn c "pnpm" ["dev"] react_cwd (Throw e);
       EvConsoleError e; EvWriteln t (MsgAutoStartFailed e)]
| both_started p1 p2 :
    command_phase c t
      [EvWriteln t (MsgDescription InstallingDependencies);
       EvWriteln t (MsgCommandLine "pnpm" ["install"]);
       EvSpawn c "pnpm" ["install"] react_cwd (Ok p1);
       EvPipeTo p1 (CbCommandOutput t);
       EvExit p1 (Ok 0%Z);
       EvWriteln t MsgDone;
       EvWriteln t (MsgDescription StartingDevServer);
       EvWriteln t (MsgCommandLine "pnpm" ["dev"]);
       EvSpawn c "pnpm" ["dev"] react_cwd (Ok p2);
       EvPipeTo p2 (CbCommandOutput t);
       EvWriteln t MsgServiceStarted;
       EvWriteln t MsgAutoStartComplete].

(** What [init] does once the shell [sh] is spawned, before the commands. *)
Definition shell_wiring (t : term) (sh : process) : list event :=
  [EvAddEventListener "resize" CbWindowResize;
   EvPipeTo sh CbShellOutput;
   EvGetWriter sh;
   EvOnData t (CbTerminalData sh)].

(** What [init] does before it spawns the shell. *)
Definition terminal_setup (t : term) : list event :=
  [EvImport "xterm" (Ok tt); EvImport "xterm-addon-fit" (Ok tt);
   EvImport "xterm-addon-web-links" (Ok tt); EvImport "xterm-addon-webgl" (Ok tt);
   EvNewTerminal t;
   EvLoadAddon t "fit"; EvLoadAddon t "web-links"; EvLoadAddon t "webgl";
   EvOpen t; EvFit].

(** ** More readers of traces *)

(** The targets of the calls to [writeDirByLocal]. *)
Definition write_targets (tr : list event) : list (option container) :=
  flat_map (fun e => match e with EvWriteDir _ target _ => [target] | _ => [] end) tr.

(** The processes whose output was piped, with the sink. *)
Definition piped (tr : list event) : list (process * callback) :=
  flat_map (fun e => match e with EvPipeTo p sink => [(p, sink)] | _ => [] end) tr.

(** The commands that [spawn] was called with, resolved or not. *)
Definition spawn_requests (tr : list event) : list (string * list string * spawn_options) :=
  flat_map (fun e => match e with
                     | EvSpawn _ cmd a o _ => [(cmd, a, o)]
                     | _ => []
                     end) tr.

(** The processes whose exit was awaited. *)
Definition awaited (tr : list event) : list process :=
  flat_map (fun e => match e with EvExit p _ => [p] | _ => [] end) tr.

(** The errors logged with [console.error]. *)
Definition console_errors (tr : list event) : list error :=
  flat_map (fun e => match e with EvConsoleError x => [x] | _ => [] end) tr.

(** The exit codes that the awaited exits resolved to. *)
Definition exit_codes (tr : list event) : list Z :=
  flat_map (fun e => match e with EvExit _ (Ok code) => [code] | _ => [] end) tr.

(** What the loop over the commands passes to [spawn] for [cmd]. *)
Definition request_of (cmd : command_entry) : string * list string * spawn_options :=
  (command cmd, args cmd, react_cwd).

(** What was logged with [console.log]. *)
Definition console_logs (tr : list event) : list string :=
  flat_map (fun e => match e with EvConsoleLog tag => [tag] | _ => [] end) tr.

(** The project that [write_cached_project] seeds from [projectInfo], when
    it completes: what [JSON.parse] makes of a text that is not empty. *)
Definition cached_project (projectInfo : option string) : option dirdata :=
  match projectInfo with
  | Some text =>
      if truthy_string text then
        match JSON_parse_projectFileData text with
        | Ok d => Some d
        | Throw _ => None
        end
      else None
  | None => None
  end.

End Model.

(** ** A scripted world

    A world simple enough to run: object identities are handed out in
    order, the cache is an association list, [/react] appears after a given
    number of failed probes, every command exits with the given code. *)

Record sim : Type := {
  sim_cache : list (string * string);   (* what localforage holds *)
  sim_current : option string;          (* curDirectory *)
  sim_next_id : nat;                    (* the next object identity *)
  sim_missing_rounds : nat;             (* probes of /react that still fail *)
  sim_exit_code : Z;                    (* exit code of a command *)
  sim_spawn_fails : bool                (* spawning pnpm rejects *)
}.

Fixpoint sim_lookup (key : string) (cache : list (string * string)) : option string :=
  match cache with
  | [] => None
  | (k, v) :: rest => if String.eqb k key then Some v else sim_lookup key rest
  end.

Definition sim_fresh_id (w : sim) : nat * sim :=
  (sim_next_id w,
   {| sim_cache := sim_cache w; sim_current := sim_current w;
      sim_next_id := S (sim_next_id w);
      sim_missing_rounds := sim_missing_rounds w;
      sim_exit_code := sim_exit_code w; sim_spawn_fails := sim_spawn_fails w |}).

Definition sim_readdir (w : sim) : res unit * sim :=
  match sim_missing_rounds w with
  | 0 => (Ok tt, w)
  | S n =>
      (Throw "ENOENT",
       {| sim_cache := sim_cache w; sim_current := sim_current w;
          sim_next_id := sim_next_id w; sim_missing_rounds := n;
          sim_exit_code := sim_exit_code w; sim_spawn_fails := sim_spawn_fails w |})
  end.

Definition sim_spawn (cmd : string) (w : sim) : res process * sim :=
  if sim_spawn_fails w && String.eqb cmd "pnpm" then (Throw "spawn failed", w)
  else match sim_fresh_id w with (p, w') => (Ok p, w') end.

#[local] Instance sim_runtime : Runtime (dirdata := string) sim := {
  localforage_getItem key w := (Ok (sim_lookup key (sim_cache w)), w);
  JSON_parse_projectFileData text := Ok text;
  WebContainer_boot w := match sim_fresh_id w with (c, w') => (Ok c, w') end;
  writeDirByLocal _ _ w := (Ok tt, w);
  curDirectory := sim_current;
  dynamic_import _ w := (Ok tt, w);
  new_Terminal := sim_fresh_id;
  terminal_cols _ _ := 80;
  terminal_rows _ _ := 24;
  spawn _ cmd _ _ := sim_spawn cmd;
  fs_readdir _ _ := sim_readdir;
  process_exit _ w := (Ok (sim_exit_code w), w);
  react _ w := w
}.

Definition sim_world (missing : nat) (code : Z) (spawn_fails : bool) : sim :=
  {| sim_cache := [("demo", "{files}")]; sim_current := Some "{current}";
     sim_next_id := 0; sim_missing_rounds := missing;
     sim_exit_code := code; sim_spawn_fails := spawn_fails |}.

Definition unmounted_panel : Panel :=
  {| captured_instance := None; terminalRef := false; shell := None;
     terminal := None; fitAddon := false; webLinksAddon := false;
     webglAddon := false |}.

(** A render of the panel over container [c], its [div] mounted. *)
Definition mounted_panel (c : container) : Panel :=
  {| captured_instance := Some c; terminalRef := true; shell := None;
     terminal := None; fitAddon := false; webLinksAddon := false;
     webglAddon := false |}.

(** The application just loaded: the store as created, no panel yet. *)
Definition sim_start : state (W := sim) :=
  {| world := sim_world 0 0%Z false; store := initial_store;
     panel := unmounted_panel |}.

(** The panel rendered over container 7 in a world of the given script. *)
Definition sim_panel_state (missing : nat) (code : Z) (spawn_fails : bool)
    : state (W := sim) :=
  {| world := sim_world missing code spawn_fails;
     store := {| webContainerInstance := Some 7; isInitialized := true; url := "" |};
     panel := mounted_panel 7 |}.

(** ** A scripted world with failures

    The scripted world above, in which the first [failing_writes] calls
    of [writeDirByLocal] are rejected and, when [jsh_rejected] is set, so
    is the spawn of the shell. *)

Record faulty : Type := {
  base : sim;
  failing_writes : nat;
  jsh_rejected : bool
}.

Definition on_base {A} (f : sim -> A * sim) (w : faulty) : A * faulty :=
  match f (base w) with
  | (a, b) => (a, {| base := b; failing_writes := failing_writes w;
                     jsh_rejected := jsh_rejected w |})
  end.

Definition faulty_write (w : faulty) : res unit * faulty :=
  match failing_writes w with
  | 0 => (Ok tt, w)
  | S n => (Throw "write failed",
            {| base := base w; failing_writes := n; jsh_rejected := jsh_rejected w |})
  end.

Definition faulty_spawn (cmd : string) (w : faulty) : res process * faulty :=
  if jsh_rejected w && String.eqb cmd "jsh" then (Throw "no shell", w)
  else on_base (sim_spawn cmd) w.

#[local] Instance faulty_runtime : Runtime (dirdata := string) faulty := {
  localforage_getItem key w := (Ok (sim_lookup key (sim_cache (base w))), w);
  JSON_parse_projectFileData text := Ok text;
  WebContainer_boot := on_base (fun b => match sim_fresh_id b with
                                         | (c, b') => (Ok c, b')
                                         end);
  writeDirByLocal _ _ := faulty_write;
  curDirectory w := sim_current (base w);
  dynamic_import _ w := (Ok tt, w);
  new_Terminal := on_base sim_fresh_id;
  terminal_cols _ _ := 80;
  terminal_rows _ _ := 24;
  spawn _ cmd _ _ := faulty_spawn cmd;
  fs_readdir _ _ := on_base sim_readdir;
  process_exit _ w := (Ok (sim_exit_code (base w)), w);
  react _ w := w
}.

(** The application just loaded, in a world where the first write fails. *)
Definition faulty_start : state (W := faulty) :=
  {| world := {| base := sim_world 0 0%Z false; failing_writes := 1;
                 jsh_rejected := false |};
     store := initial_store;
     panel := unmounted_panel |}.

(** The panel rendered over container 7, in a world that rejects the shell. *)
Definition faulty_panel_state : state (W := faulty) :=
  {| world := {| base := sim_world 0 0%Z false; failing_writes := 0;
                 jsh_rejected := true |};
     store := {| webContainerInstance := Some 7; isInitialized := true; url := "" |};
     panel := mounted_panel 7 |}.

(** ** A scripted world whose storage is down

    The first scripted world, in which every [localforage.getItem] is
    rejected. *)

Record offline : Type := { behind : sim }.

Definition offline_lift {A} (f : sim -> A * sim) (w : offline) : A * offline :=
  match f (behind w) with
  | (a, b) => (a, {| behind := b |})
  end.

#[local] Instance offline_runtime : Runtime (dirdata := string) offline := {
  localforage_getItem _ w := (Throw "storage unavailable", w);
  JSON_parse_projectFileData text := Ok text;
  WebContainer_boot := offline_lift (fun b => match sim_fresh_id b with
                                              | (c, b') => (Ok c, b')
                                              end);
  writeDirByLocal _ _ w := (Ok tt, w);
  curDirectory w := sim_current (behind w);
  dynamic_import _ w := (Ok tt, w);
  new_Terminal := offline_lift sim_fresh_id;
  terminal_cols _ _ := 80;
  terminal_rows _ _ := 24;
  spawn _ cmd _ _ := offline_lift (sim_spawn cmd);
  fs_readdir _ _ := offline_lift sim_readdir;
  process_exit _ w := (Ok (sim_exit_code (behind w)), w);
  react _ w := w
}.


(** * Properties *)

Section Properties.
Context {dirdata W : Type} {RT : Runtime (dirdata := dirdata) W}.

Local Abbreviation M := (@M dirdata W).
Local Abbreviation state := (@state W).
Local Abbreviation event := (@event dirdata).
Local Abbreviation failed_rounds := (@failed_rounds dirdata).
Local Abbreviation terminal_setup := (@terminal_setup dirdata).
Local Abbreviation shell_wiring := (@shell_wiring dirdata).

(** ** Inversion of a run *)

Lemma bind_inv {A B} (m : M A) (k : A -> M B) (s : state) r s' tr :
  bind m k s = (r, s', tr) ->
  (exists a s1 t1 t2,
      m s = (Ok a, s1, t1) /\ k a s1 = (r, s', t2) /\ tr = t1 ++ t2) \/
  (exists e, m s = (Throw e, s', tr) /\ r = Throw e).
Proof.
  unfold bind. destruct (m s) as [[[a | e] s1] t1].
  - destruct (k a s1) as [[r2 s2] t2] eqn:Hk. intros H; inversion H; subst.
    left. exists a, s1, t1, t2. auto.
  - intros H; inversion H; subst. right. exists e. auto.
Qed.

Lemma ret_inv {A} (a : A) (s : state) r s' (tr : list event) :
  ret a s = (r, s', tr) -> r = Ok a /\ s' = s /\ tr = [].
Proof. unfold ret. intros H; inversion H; auto. Qed.

Lemma call_inv {A} (op : W -> res A * W) (ev : res A -> event) s r s' tr :
  call op ev s = (r, s', tr) ->
  exists w, op (world s) = (r, w) /\ s' = with_world s w /\ tr = [ev r].
Proof.
  unfold call. destruct (op (world s)) as [r1 w]. intros H; inversion H; subst.
  exists w. auto.
Qed.

Lemma emit_inv (e : event) s r s' tr :
  emit e s = (r, s', tr) ->
  r = Ok tt /\ s' = with_world s (react e (world s)) /\ tr = [e].
Proof. unfold emit. intros H; inversion H; auto. Qed.

Lemma set_inv p (s : state) r s' (tr : list event) :
  set p s = (r, s', tr) ->
  r = Ok tt /\ s' = with_store s (merge p (store s)) /\ tr = [EvSet p].
Proof. unfold set. intros H; inversion H; auto. Qed.

Lemma lift_res_inv {A} (x : res A) (s : state) r s' (tr : list event) :
  lift_res x s = (r, s', tr) -> r = x /\ s' = s /\ tr = [].
Proof. unfold lift_res. intros H; inversion H; auto. Qed.

Lemma try_catch_inv {A} (body : M A) handler (s : state) r s' tr :
  try_catch body handler s = (r, s', tr) ->
  (exists a, body s = (Ok a, s', tr) /\ r = Ok a) \/
  (exists e s1 t1 t2,
      body s = (Throw e, s1, t1) /\ handler e s1 = (r, s', t2) /\ tr = t1 ++ t2).
Proof.
  unfold try_catch. destruct (body s) as [[[a | e] s1] t1].
  - intros H; inversion H; subst. left. exists a. auto.
  - destruct (handler e s1) as [[r2 s2] t2] eqn:Hh. intros H; inversion H; subst.
    right. exists e, s1, t1, t2. auto.
Qed.

Lemma create_terminal_inv (s : state) r s' (tr : list event) :
  create_terminal s = (r, s', tr) ->
  exists w, r = Ok (fst (new_Terminal (world s))) /\ s' = with_world s w /\
            tr = [EvNewTerminal (fst (new_Terminal (world s)))].
Proof.
  unfold create_terminal. destruct (new_Terminal (world s)) as [t w].
  intros H; inversion H; subst. exists w. auto.
Qed.

(** One step of inversion on a hypothesis that runs a computation. *)
Ltac inv_step :=
  match goal with
  | H : bind _ _ _ = _ |- _ =>
      apply bind_inv in H;
      destruct H as [(? & ? & ? & ? & ? & ? & ?) | (? & ? & ?)]
  | H : ret _ _ = _ |- _ => apply ret_inv in H; destruct H as (? & ? & ?)
  | H : emit _ _ = _ |- _ => apply emit_inv in H; destruct H as (? & ? & ?)
  | H : console_log _ _ = _ |- _ => unfold console_log in H
  | H : console_error _ _ = _ |- _ => unfold console_error in H
  | H : set _ _ = _ |- _ => apply set_inv in H; destruct H as (? & ? & ?)
  | H : setUrl _ _ = _ |- _ => unfold setUrl in H
  | H : lift_res _ _ = _ |- _ => apply lift_res_inv in H; destruct H as (? & ? & ?)
  | H : get_store _ = _ |- _ => unfold get_store in H; inversion H; clear H
  | H : get_panel _ = _ |- _ => unfold get_panel in H; inversion H; clear H
  | H : get_world _ = _ |- _ => unfold get_world in H; inversion H; clear H
  | H : set_panel _ _ = _ |- _ => unfold set_panel in H; inversion H; clear H
  | H : set_addons _ = _ |- _ => unfold set_addons in H
  | H : set_terminal _ _ = _ |- _ => unfold set_terminal in H
  | H : set_shell _ _ = _ |- _ => unfold set_shell in H
  | H : terminal_dimensions _ = _ |- _ => unfold terminal_dimensions in H
  | H : create_terminal _ = _ |- _ =>
      apply create_terminal_inv in H; destruct H as (? & ? & ? & ?)
  | H : call _ _ _ = _ |- _ => apply call_inv in H; destruct H as (? & ? & ? & ?)
  | H : try_catch _ _ _ = _ |- _ =>
      apply try_catch_inv in H;
      destruct H as [(? & ? & ?) | (? & ? & ? & ? & ? & ? & ?)]
  | u : unit |- _ => destruct u
  | H : Ok _ = Ok _ |- _ => inversion H; clear H
  | H : Throw _ = Throw _ |- _ => inversion H; clear H
  | H : Ok _ = Throw _ |- _ => discriminate H
  | H : Throw _ = Ok _ |- _ => discriminate H
  end; subst.

Ltac inv_run := repeat inv_step.

(** Inversion of [emit] that forgets how the world reacted. *)
Lemma emit_inv_world (e : event) (s : state) r s' tr :
  emit e s = (r, s', tr) ->
  exists w, r = Ok tt /\ s' = with_world s w /\ tr = [e].
Proof. unfold emit. intros H; inversion H. eauto. Qed.

Ltac inv_light :=
  first [ match goal with
          | H : emit _ _ = _ |- _ =>
              apply emit_inv_world in H; destruct H as (? & ? & ? & ?); subst
          end
        | inv_step ].

(** The laws of the monad, on a run. *)
Lemma bind_assoc_run {A B C} (m : M A) (f : A -> M B) (g : B -> M C) (s : state) :
  bind (bind m f) g s = bind m (fun a => bind (f a) g) s.
Proof.
  unfold bind. destruct (m s) as [[[a | e] s1] t1]; [ | reflexivity].
  destruct (f a s1) as [[[b | e] s2] t2]; [ | reflexivity].
  destruct (g b s2) as [[r s3] t3]. rewrite app_assoc. reflexivity.
Qed.

Lemma bind_ext_run {A B} (m : M A) (f g : A -> M B) (s : state) :
  (forall a s1, f a s1 = g a s1) -> bind m f s = bind m g s.
Proof.
  intros H. unfold bind. destruct (m s) as [[[a | e] s1] t1]; [ | reflexivity].
  rewrite H. reflexivity.
Qed.

Lemma bind_ret_run {A B} (a : A) (f : A -> M B) (s : state) :
  bind (ret a) f s = f a s.
Proof. unfold bind, ret. destruct (f a s) as [[r s1] t1]. reflexivity. Qed.

Lemma write_cached_project_inv info tag target s r s' tr :
  write_cached_project info tag target s = (r, s', tr) ->
  store s' = store s /\ panel s' = panel s /\
  ((exists text e, info = Some text /\ truthy_string text = true /\
        JSON_parse_projectFileData text = Throw e /\ r = Throw e /\ tr = []) \/
   (exists text pfd, info = Some text /\ truthy_string text = true /\
        JSON_parse_projectFileData text = Ok pfd /\
        tr = seeding tag (Some pfd) target r) \/
   (truthy_item info = false /\ r = Ok tt /\ tr = [])).
Proof.
  unfold write_cached_project. intros H.
  destruct info as [text | ]; [destruct (truthy_string text) eqn:Ht | ].
  - inv_run; simpl;
      first [ repeat split; auto; right; left; eauto 10; fail
            | repeat split; auto; left; eauto 10 ].
  - inv_run. simpl. rewrite Ht. auto 10.
  - inv_run. auto 10.
Qed.

Lemma write_current_directory_inv tag target (s : state) r s' tr :
  write_current_directory tag target s = (r, s', tr) ->
  store s' = store s /\ panel s' = panel s /\
  tr = seeding tag (curDirectory (world s)) target r /\
  (curDirectory (world s) = None -> r = Ok tt).
Proof.
  unfold write_current_directory. intros H.
  inv_step; inv_run.
  match goal with
  | H : match curDirectory ?w with _ => _ end _ = _ |- _ =>
      destruct (curDirectory w) as [d | ] eqn:Hcur
  end; inv_run; simpl; rewrite ?Hcur; repeat split; auto; discriminate.
Qed.

Lemma boots_app (t1 t2 : list event) : boots (t1 ++ t2) = boots t1 ++ boots t2.
Proof. apply flat_map_app. Qed.

Lemma listeners_on_app name (t1 t2 : list event) :
  listeners_on name (t1 ++ t2) = listeners_on name t1 ++ listeners_on name t2.
Proof. apply flat_map_app. Qed.

Lemma sets_app (t1 t2 : list event) : sets (t1 ++ t2) = sets t1 ++ sets t2.
Proof. apply flat_map_app. Qed.

Lemma boots_seeding tag (d : option dirdata) target r : boots (seeding tag d target r) = [].
Proof. destruct d; reflexivity. Qed.

Lemma sets_seeding tag (d : option dirdata) target r :
  sets (seeding tag d target r) = [].
Proof. destruct d; reflexivity. Qed.

Lemma listeners_on_seeding name tag (d : option dirdata) target r :
  listeners_on name (seeding tag d target r) = [].
Proof. destruct d; reflexivity. Qed.

(** The trace of seeding from the cached project, whatever its outcome. *)
Lemma write_cached_project_trace info tag target (s : state) r s' tr :
  write_cached_project info tag target s = (r, s', tr) ->
  store s' = store s /\ panel s' = panel s /\
  exists d wr, tr = seeding tag d target wr.
Proof.
  intros H. apply write_cached_project_inv in H.
  destruct H as (Hs & Hp & [(text & e & _ & _ & _ & _ & ->)
                           | [(text & pfd & _ & _ & _ & ->) | (_ & _ & ->)]]);
    repeat split; auto.
  - exists None, (Ok tt). reflexivity.
  - exists (Some pfd), r. reflexivity.
  - exists None, (Ok tt). reflexivity.
Qed.

(** A call on a fresh store that completes. *)
Lemma initWebContainer_fresh_completes projectId (s : state) s' tr :
  needs_boot (store s) = true ->
  initWebContainer projectId s = (Ok tt, s', tr) ->
  exists info c pfd cur,
    tr = [EvGetItem (match projectId with Some k => k | None => "" end) (Ok info);
          EvConsoleLog "projectInfo";
          EvBoot (Ok c); EvConsoleLog "newWebContainerInstance"]
         ++ seeding "projectFileData" pfd (Some c) (Ok tt)
         ++ seeding "curDirectory" cur (Some c) (Ok tt)
         ++ [EvOn c "server-ready" CbServerReady;
             EvSet (instance_initialized (Some c))] /\
    store s' = merge (instance_initialized (Some c)) (store s) /\
    panel s' = panel s.
Proof.
  unfold initWebContainer. intros Hf H.
  inv_run. cbn [store with_world] in *. rewrite Hf in *.
  inv_run.
  match goal with
  | H : write_cached_project _ _ _ _ = _ |- _ =>
      apply write_cached_project_inv in H;
      destruct H as (Hs1 & Hp1 & [(? & ? & _ & _ & _ & ? & _)
                               | [(? & pfd & _ & _ & _ & ->) | (_ & _ & ->)]]);
      try discriminate
  end;
  match goal with
  | H : write_current_directory _ _ _ = _ |- _ =>
      apply write_current_directory_inv in H;
      destruct H as (Hs2 & Hp2 & -> & _)
  end.
  - eexists _, _, (Some pfd), _. simpl. rewrite Hs2, Hs1, Hp2, Hp1. simpl.
    repeat split; reflexivity.
  - eexists _, _, None, _. simpl. rewrite Hs2, Hs1, Hp2, Hp1. simpl.
    repeat split; reflexivity.
Qed.

(** A call on a store that is not fresh and that completes. *)
Lemma initWebContainer_again_completes projectId (s : state) s' tr :
  needs_boot (store s) = false ->
  initWebContainer projectId s = (Ok tt, s', tr) ->
  exists info pfd cur,
    tr = [EvGetItem (match projectId with Some k => k | None => "" end) (Ok info);
          EvConsoleLog "projectInfo"]
         ++ seeding "projectFileData1" pfd (webContainerInstance (store s)) (Ok tt)
         ++ seeding "curDirectory1" cur (webContainerInstance (store s)) (Ok tt)
         ++ match webContainerInstance (store s) with
            | Some c => [EvOn c "server-ready" CbServerReady11]
            | None => []
            end
         ++ [EvSet (instance_initialized (webContainerInstance (store s)))] /\
    store s' = merge (instance_initialized (webContainerInstance (store s))) (store s) /\
    panel s' = panel s.
Proof.
  unfold initWebContainer. intros Hf H.
  inv_run. cbn [store with_world] in *. rewrite Hf in *.
  inv_run.
  match goal with
  | H : write_cached_project _ _ _ _ = _ |- _ =>
      apply write_cached_project_inv in H;
      destruct H as (Hs1 & Hp1 & [(? & ? & _ & _ & _ & ? & _)
                               | [(? & pfd & _ & _ & _ & ->) | (_ & _ & ->)]]);
      try discriminate
  end;
  match goal with
  | H : write_current_directory _ _ _ = _ |- _ =>
      apply write_current_directory_inv in H;
      destruct H as (Hs2 & Hp2 & -> & _)
  end;
  simpl in Hs1, Hp1;
  [ eexists _, (Some pfd), _ | eexists _, None, _ ];
  (destruct (webContainerInstance (store _)) eqn:Hi; inv_run; simpl;
   rewrite ?Hs2, ?Hs1, ?Hp2, ?Hp1, ?Hi; simpl; rewrite ?Hi;
   repeat split; reflexivity).
Qed.

(** A call that throws leaves the store and the panel as they were. *)
Lemma initWebContainer_throws projectId (s : state) e s' tr :
  initWebContainer projectId s = (Throw e, s', tr) ->
  store s' = store s /\ panel s' = panel s /\ sets tr = [].
Proof.
  unfold initWebContainer. intros H.
  inv_run; cbn [store with_world] in *.
  all: try (repeat split; reflexivity).
  all: destruct (needs_boot _); inv_run.
  all: repeat match goal with
  | H : write_cached_project _ _ _ _ = _ |- _ =>
      apply write_cached_project_trace in H; destruct H as (? & ? & ? & ? & ->)
  | H : write_current_directory _ _ _ = _ |- _ =>
      apply write_current_directory_inv in H; destruct H as (? & ? & -> & _)
  | H : match ?x with _ => _ end _ = _ |- _ => destruct x; inv_run
  end; simpl in *; rewrite ?sets_app, ?sets_seeding; simpl;
  try (repeat split; congruence).
Qed.


Lemma needs_boot_true st :
  needs_boot st = true ->
  isInitialized st = false /\ webContainerInstance st = None.
Proof.
  unfold needs_boot. destruct (isInitialized st), (webContainerInstance st);
    simpl; intros H; try discriminate; auto.
Qed.

(** What a completed call leaves in the store and what it registers. *)
Lemma initWebContainer_completes projectId (s : state) s' tr :
  initWebContainer projectId s = (Ok tt, s', tr) ->
  isInitialized (store s') = true /\
  (forall c, webContainerInstance (store s) = Some c ->
             webContainerInstance (store s') = Some c) /\
  (needs_boot (store s) = false ->
   webContainerInstance (store s') = webContainerInstance (store s)) /\
  listeners_on "server-ready" tr =
    match webContainerInstance (store s') with Some c => [c] | None => [] end /\
  boots tr =
    (if needs_boot (store s)
     then match webContainerInstance (store s') with Some c => [Ok c] | None => [] end
     else []) /\
  (needs_boot (store s) = true -> exists c, webContainerInstance (store s') = Some c).
Proof.
  intros H. destruct (needs_boot (store s)) eqn:Hn.
  - destruct (initWebContainer_fresh_completes _ _ _ _ Hn H)
      as (info & c & pfd & cur & -> & -> & _).
    apply needs_boot_true in Hn. destruct Hn as [_ Hi].
    rewrite !listeners_on_app, !boots_app, !listeners_on_seeding, !boots_seeding.
    simpl. repeat split; eauto; try discriminate. rewrite Hi. discriminate.
  - destruct (initWebContainer_again_completes _ _ _ _ Hn H)
      as (info & pfd & cur & -> & -> & _).
    rewrite !listeners_on_app, !boots_app, !listeners_on_seeding, !boots_seeding.
    simpl. repeat split; auto; try discriminate.
    destruct (webContainerInstance (store s)); reflexivity.
    destruct (webContainerInstance (store s)); reflexivity.
Qed.

Lemma lookup_resolved_app (t1 t2 : list event) :
  lookup_resolved (t1 ++ t2) = lookup_resolved t1 || lookup_resolved t2.
Proof. apply existsb_app. Qed.

(** [WebContainer.boot()] is called once by a call that finds the store
    not yet initialized and gets past the lookup, and by no other call. *)
Lemma initWebContainer_boot_calls projectId (s : state) r s' tr :
  initWebContainer projectId s = (r, s', tr) ->
  length (boots tr) = if needs_boot (store s) && lookup_resolved tr then 1 else 0.
Proof.
  unfold initWebContainer. intros H.
  inv_run; cbn [store with_world] in *.
  2: { simpl. rewrite andb_false_r. reflexivity. }
  rewrite app_nil_l, lookup_resolved_app. cbn [lookup_resolved existsb orb].
  rewrite andb_true_r.
  destruct (needs_boot _); inv_run;
  repeat match goal with
  | H : write_cached_project _ _ _ _ = _ |- _ =>
      apply write_cached_project_trace in H; destruct H as (_ & _ & ? & ? & ->)
  | H : write_current_directory _ _ _ = _ |- _ =>
      apply write_current_directory_inv in H; destruct H as (_ & _ & -> & _)
  | H : match ?x with _ => _ end _ = _ |- _ => destruct x; inv_run
  end;
  rewrite ?boots_app, ?boots_seeding; reflexivity.
Qed.




(** The calls of a sequence that completes, one after the other. *)
Lemma initWebContainer_calls_cons p rest (s : state) s' tr :
  initWebContainer_calls (p :: rest) s = (Ok tt, s', tr) ->
  exists s1 t1 t2,
    initWebContainer p s = (Ok tt, s1, t1) /\
    initWebContainer_calls rest s1 = (Ok tt, s', t2) /\ tr = t1 ++ t2.
Proof.
  simpl. intros H. apply bind_inv in H.
  destruct H as [([] & s1 & t1 & t2 & H1 & H2 & ->) | (? & _ & ?)];
    [ eauto 10 | discriminate ].
Qed.

Lemma initWebContainer_calls_keep_instance calls : forall (s : state) s' tr c,
  initWebContainer_calls calls s = (Ok tt, s', tr) ->
  webContainerInstance (store s) = Some c ->
  webContainerInstance (store s') = Some c.
Proof.
  induction calls as [ | p rest IH]; intros s s' tr c H Hc.
  - simpl in H. inv_run. assumption.
  - apply initWebContainer_calls_cons in H.
    destruct H as (s1 & t1 & t2 & H1 & H2 & _).
    apply initWebContainer_completes in H1. destruct H1 as (_ & Hk & _).
    eapply IH; eauto.
Qed.

Lemma initWebContainer_calls_keep_none calls : forall (s : state) s' tr,
  initWebContainer_calls calls s = (Ok tt, s', tr) ->
  isInitialized (store s) = true ->
  webContainerInstance (store s) = None ->
  webContainerInstance (store s') = None /\ listeners_on "server-ready" tr = [].
Proof.
  induction calls as [ | p rest IH]; intros s s' tr H Hi Hn.
  - simpl in H. inv_run. auto.
  - apply initWebContainer_calls_cons in H.
    destruct H as (s1 & t1 & t2 & H1 & H2 & ->).
    apply initWebContainer_completes in H1.
    destruct H1 as (Hi1 & _ & Hsame & Hl & _).
    assert (Hnb : needs_boot (store s) = false)
      by (unfold needs_boot; rewrite Hi; reflexivity).
    specialize (Hsame Hnb). rewrite Hn in Hsame. rewrite Hsame in Hl.
    destruct (IH _ _ _ H2 Hi1 Hsame) as [Hn' Hl'].
    rewrite listeners_on_app, Hl, Hl'. auto.
Qed.

(** C1 (as amended): every call of [initWebContainer] that completes
    registers one more 'server-ready' listener on the container instance of
    the store: after [n] calls made one after the other, the instance the
    store holds carries [n] listeners (one only when [n] is 1), and no
    listener is registered when the store ends without an instance. *)
Theorem initWebContainer_calls_listeners calls : forall (s : state) s' tr,
  initWebContainer_calls calls s = (Ok tt, s', tr) ->
  listeners_on "server-ready" tr =
    match webContainerInstance (store s') with
    | Some c => repeat c (length calls)
    | None => []
    end.
Proof.
  induction calls as [ | p rest IH]; intros s s' tr H.
  - simpl in H. inv_run. destruct (webContainerInstance (store _)); reflexivity.
  - apply initWebContainer_calls_cons in H.
    destruct H as (s1 & t1 & t2 & H1 & H2 & ->).
    rewrite listeners_on_app, (IH _ _ _ H2).
    apply initWebContainer_completes in H1.
    destruct H1 as (Hi1 & _ & _ & -> & _).
    destruct (webContainerInstance (store s1)) as [c | ] eqn:Hc.
    + rewrite (initWebContainer_calls_keep_instance _ _ _ _ _ H2 Hc). reflexivity.
    + destruct (initWebContainer_calls_keep_none _ _ _ _ H2 Hi1 Hc) as [-> _].
      reflexivity.
Qed.

(** No call, completed or not, lowers [isInitialized] or changes the
    instance of a store that holds one. *)
Lemma initWebContainer_keeps projectId (s : state) r s' tr :
  initWebContainer projectId s = (r, s', tr) ->
  (isInitialized (store s) = true -> isInitialized (store s') = true) /\
  (forall c, webContainerInstance (store s) = Some c ->
             webContainerInstance (store s') = Some c).
Proof.
  intros H. destruct r as [[] | e].
  - pose proof (initWebContainer_completes _ _ _ _ H) as (Hi & Hk & _). auto.
  - apply initWebContainer_throws in H. destruct H as (-> & _ & _). auto.
Qed.

(** ** [initWebContainer] by segments *)











(** Seeding from the cached project, when it completes: what is seeded is
    the project parsed from what the lookup gave, and a lookup that gave a
    text that is not empty does seed. *)
Lemma write_cached_project_completes info tag target (s : state) s' tr :
  write_cached_project info tag target s = (Ok tt, s', tr) ->
  tr = seeding tag (cached_project info) target (Ok tt) /\
  (truthy_item info = true -> cached_project info <> None) /\
  store s' = store s /\ panel s' = panel s /\
  match cached_project info with
  | Some d =>
      writeDirByLocal d target (react (EvConsoleLog tag) (world s)) = (Ok tt, world s')
  | None => world s' = world s
  end.
Proof.
  unfold write_cached_project, cached_project, truthy_item. intros H.
  destruct info as [text | ]; [destruct (truthy_string text) eqn:Ht | ].
  - inv_run.
    match goal with
    | H : _ = JSON_parse_projectFileData text |- _ => rewrite <- H
    end.
    simpl. repeat split; try assumption. discriminate.
  - inv_run. repeat split. discriminate.
  - inv_run. repeat split. discriminate.
Qed.

(** A call on a fresh store that completes, step by step: the answers of
    the world, and what is seeded from them. *)
Lemma fresh_boot_sequence projectId (s : state) s' tr :
  needs_boot (store s) = true ->
  initWebContainer projectId s = (Ok tt, s', tr) ->
  let key := match projectId with Some k => k | None => "" end in
  exists info c w1 w2 w4,
    localforage_getItem key (world s) = (Ok info, w1) /\
    WebContainer_boot (react (EvConsoleLog "projectInfo") w1) = (Ok c, w2) /\
    match cached_project info with
    | Some d =>
        writeDirByLocal d (Some c)
          (react (EvConsoleLog "projectFileData")
                 (react (EvConsoleLog "newWebContainerInstance") w2)) = (Ok tt, w4)
    | None => w4 = react (EvConsoleLog "newWebContainerInstance") w2
    end /\
    (truthy_item info = true -> cached_project info <> None) /\
    tr = [EvGetItem key (Ok info); EvConsoleLog "projectInfo";
          EvBoot (Ok c); EvConsoleLog "newWebContainerInstance"]
         ++ seeding "projectFileData" (cached_project info) (Some c) (Ok tt)
         ++ seeding "curDirectory" (curDirectory w4) (Some c) (Ok tt)
         ++ [EvOn c "server-ready" CbServerReady;
             EvSet (instance_initialized (Some c))] /\
    webContainerInstance (store s') = Some c /\
    isInitialized (store s') = true.
Proof.
  unfold initWebContainer. intros Hf H.
  inv_run. cbn [store with_world] in *. rewrite Hf in *.
  inv_run.
  match goal with
  | H : write_cached_project _ _ _ _ = _ |- _ =>
      apply write_cached_project_completes in H;
      destruct H as (-> & Htruthy & Hs1 & Hp1 & Hw)
  end.
  match goal with
  | H : write_current_directory _ _ ?s4 = _ |- _ =>
      apply write_current_directory_inv in H;
      destruct H as (Hs2 & Hp2 & -> & _);
      cbn [world with_world] in *;
      eexists _, _, _, _, (world s4)
  end.
  split; [eassumption | ]. split; [eassumption | ].
  split; [exact Hw | split; [exact Htruthy | split; [reflexivity | ]]].
  simpl. rewrite ?Hs2, ?Hs1. simpl. auto.
Qed.


(** ** The terminal panel *)

Lemma probe_react_dir_inv c t (s : state) r s' tr :
  probe_react_dir c t s = (r, s', tr) ->
  store s' = store s /\ panel s' = panel s /\
  ((r = Ok true /\
    tr = [EvReaddir c "/react" (Ok tt); EvWriteln t MsgDirectoryReady]) \/
   (exists e, r = Ok false /\ tr = failed_rounds c [e])).
Proof.
  unfold probe_react_dir. intros H. inv_run; simpl; eauto 10.
Qed.

Lemma wait_for_react_dir_inv c t rounds : forall (s : state) r s' tr,
  wait_for_react_dir c t rounds s = (r, s', tr) ->
  store s' = store s /\ panel s' = panel s /\
  exists errs,
    (r = Ok true /\ length errs < rounds /\
     tr = failed_rounds c errs
          ++ [EvReaddir c "/react" (Ok tt); EvWriteln t MsgDirectoryReady]) \/
    (r = Ok false /\ length errs = rounds /\ tr = failed_rounds c errs).
Proof.
  induction rounds as [ | n IH]; intros s r s' tr H; simpl in H.
  - inv_run. repeat split; auto. exists []. right. auto.
  - apply bind_inv in H.
    destruct H as [(found & s1 & t1 & t2 & H1 & H2 & ->) | (e & H1 & ->)];
      apply probe_react_dir_inv in H1;
      destruct H1 as (Hs & Hp & [[Hr ->] | (e1 & Hr & ->)]); try discriminate;
      inversion Hr; subst found.
    + inv_run. repeat split; auto. exists []. left. simpl.
      repeat split; auto. lia.
    + apply IH in H2. destruct H2 as (Hs2 & Hp2 & errs & Hcases).
      repeat split; try congruence. exists (e1 :: errs).
      destruct Hcases as [(-> & Hl & ->) | (-> & Hl & ->)]; [left | right];
        simpl; repeat split; auto; lia.
Qed.

(** [executeAutoCommands] returns, and its trace is: the greeting, the
    failed rounds of the wait, then either the give-up line after
    [maxRetries] failures, or the successful probe and the command phase. *)
Lemma executeAutoCommands_trace c t (s : state) :
  exists s' errs tail,
    executeAutoCommands c t s =
      (Ok tt, s', EvWriteln t MsgWaitingForDirectory :: failed_rounds c errs ++ tail) /\
    store s' = store s /\ panel s' = panel s /\
    ((length errs = maxRetries /\ tail = [EvWriteln t MsgDirectoryNotFound]) \/
     (length errs < maxRetries /\
      exists cmds,
        tail = EvReaddir c "/react" (Ok tt) :: EvWriteln t MsgDirectoryReady
               :: EvWriteln t MsgAutoStartBegins :: cmds /\
        command_phase c t cmds)).
Proof.
  destruct (executeAutoCommands c t s) as [[r s'] tr] eqn:H.
  unfold executeAutoCommands in H. inv_run.
  all: match goal with
    | H : wait_for_react_dir _ _ _ _ = _ |- _ =>
        apply wait_for_react_dir_inv in H;
        destruct H as (Hs & Hp & errs & [(Hr & Hl & ->) | (Hr & Hl & ->)]);
        inversion Hr; subst
    end; cbn [negb] in *; inv_run.
  all: repeat match goal with
    | H : run_commands _ _ _ _ = _ |- _ =>
        simpl in H; unfold run_command in H; simpl in H; inv_run
    | H : (if negb (?z =? 0)%Z then _ else _) _ = _ |- _ =>
        destruct (Z.eqb_spec z 0); cbn [negb] in H; subst; inv_run
    end.
  all: simpl in Hs, Hp; eexists _, errs, _;
    (split; [rewrite <- ?app_assoc; reflexivity | ]);
    (split; [simpl; congruence | ]);
    (split; [simpl; congruence | ]).
  all: try (left; split; [assumption | reflexivity]).
  all: right; split; [assumption | ];
    eexists; split; [reflexivity | ]; simpl; constructor; assumption.
Qed.


Lemma list_sum_repeat x n : list_sum (repeat x n) = x * n.
Proof. induction n as [ | n IH]; simpl; lia. Qed.

Lemma probes_app (t1 t2 : list event) : probes (t1 ++ t2) = probes t1 ++ probes t2.
Proof. apply flat_map_app. Qed.
Lemma sleeps_app (t1 t2 : list event) : sleeps (t1 ++ t2) = sleeps t1 ++ sleeps t2.
Proof. apply flat_map_app. Qed.
Lemma process_events_app (t1 t2 : list event) :
  process_events (t1 ++ t2) = process_events t1 ++ process_events t2.
Proof. apply filter_app. Qed.
Lemma error_messages_app (t1 t2 : list event) :
  error_messages (t1 ++ t2) = error_messages t1 ++ error_messages t2.
Proof. apply flat_map_app. Qed.
Lemma command_errors_app (t1 t2 : list event) :
  command_errors (t1 ++ t2) = command_errors t1 ++ command_errors t2.
Proof. apply flat_map_app. Qed.
Lemma probe_errors_app (t1 t2 : list event) :
  probe_errors (t1 ++ t2) = probe_errors t1 ++ probe_errors t2.
Proof. apply flat_map_app. Qed.
Lemma wirings_app (t1 t2 : list event) : wirings (t1 ++ t2) = wirings t1 ++ wirings t2.
Proof. apply filter_app. Qed.

Lemma failed_rounds_cons c e errs :
  failed_rounds c (e :: errs) =
  [EvReaddir c "/react" (Throw e);
   EvConsoleLog "Directory does not exist, retrying...";
   EvSleep retryInterval] ++ failed_rounds c errs.
Proof. reflexivity. Qed.

Lemma probes_failed_rounds c errs :
  probes (failed_rounds c errs) = map (fun e => ("/react", Throw e)) errs.
Proof.
  induction errs as [ | e errs IH]; [reflexivity | ].
  rewrite failed_rounds_cons, probes_app, IH. reflexivity.
Qed.

Lemma sleeps_failed_rounds c errs :
  sleeps (failed_rounds c errs) = repeat 200 (length errs).
Proof.
  induction errs as [ | e errs IH]; [reflexivity | ].
  rewrite failed_rounds_cons, sleeps_app, IH. reflexivity.
Qed.

Lemma process_events_failed_rounds c errs :
  process_events (failed_rounds c errs) = [].
Proof.
  induction errs as [ | e errs IH]; [reflexivity | ].
  rewrite failed_rounds_cons, process_events_app, IH. reflexivity.
Qed.

Lemma error_messages_failed_rounds c errs :
  error_messages (failed_rounds c errs) = [].
Proof.
  induction errs as [ | e errs IH]; [reflexivity | ].
  rewrite failed_rounds_cons, error_messages_app, IH. reflexivity.
Qed.

Lemma command_errors_failed_rounds c errs :
  command_errors (failed_rounds c errs) = [].
Proof.
  induction errs as [ | e errs IH]; [reflexivity | ].
  rewrite failed_rounds_cons, command_errors_app, IH. reflexivity.
Qed.

Lemma probe_errors_failed_rounds c errs :
  probe_errors (failed_rounds c errs) = errs.
Proof.
  induction errs as [ | e errs IH]; [reflexivity | ].
  rewrite failed_rounds_cons, probe_errors_app, IH. reflexivity.
Qed.

Lemma wirings_failed_rounds c errs : wirings (failed_rounds c errs) = [].
Proof.
  induction errs as [ | e errs IH]; [reflexivity | ].
  rewrite failed_rounds_cons, wirings_app, IH. reflexivity.
Qed.

Lemma failed_rounds_no_success c errs c' path :
  ~ In (EvReaddir c' path (Ok tt)) (failed_rounds c errs).
Proof.
  induction errs as [ | e errs IH]; simpl; [tauto | ].
  intros [H | [H | [H | H]]]; try discriminate. tauto.
Qed.

(** The probes, pauses and messages of a command phase. *)
Lemma command_phase_quiet c t (cmds : list event) :
  command_phase c t cmds ->
  probes cmds = [] /\ sleeps cmds = [] /\ probe_errors cmds = [].
Proof. intros H; inversion H; subst; simpl; auto. Qed.

Lemma ready_trace_split c t errs (cmds : list event) :
  EvWriteln t MsgWaitingForDirectory
  :: failed_rounds c errs
     ++ EvReaddir c "/react" (Ok tt) :: EvWriteln t MsgDirectoryReady
        :: EvWriteln t MsgAutoStartBegins :: cmds =
  ([EvWriteln t MsgWaitingForDirectory]
   ++ failed_rounds c errs
   ++ [EvReaddir c "/react" (Ok tt); EvWriteln t MsgDirectoryReady;
       EvWriteln t MsgAutoStartBegins]) ++ cmds.
Proof. simpl. rewrite <- app_assoc. reflexivity. Qed.

(** C3: before any command, [executeAutoCommands] probes [/react] at most
    50 times; every failed probe is followed by a pause of 200 ms, 10
    seconds at most in all; a probe that succeeds is the last one; when the
    50 probes fail the function returns and has spawned nothing. *)
Theorem executeAutoCommands_waits_for_directory c t (s : state) r s' tr :
  executeAutoCommands c t s = (r, s', tr) ->
  exists (errs : list error) (found : bool),
    probes tr = map (fun e => ("/react", Throw e)) errs
                ++ (if found then [("/react", Ok tt)] else []) /\
    length (probes tr) <= 50 /\
    sleeps tr = repeat 200 (length errs) /\
    (Z.of_nat (list_sum (sleeps tr)) <= 10000)%Z /\
    (found = true -> length errs < 50) /\
    (found = false ->
     length errs = 50 /\ r = Ok tt /\ process_events tr = []) /\
    exists before after,
      tr = before ++ after /\ process_events before = [] /\
      probes after = [] /\ sleeps after = [].
Proof.
  intros H.
  destruct (executeAutoCommands_trace c t s)
    as (s1 & errs & tail & Hrun & _ & _ & Hcases).
  rewrite Hrun in H. inversion H; subst; clear H.
  unfold maxRetries in Hcases.
  destruct Hcases as [(Hl & ->) | (Hl & cmds & -> & Hc)].
  - exists errs, false.
    change (EvWriteln t MsgWaitingForDirectory
            :: failed_rounds c errs ++ [EvWriteln t MsgDirectoryNotFound])
      with ([EvWriteln t MsgWaitingForDirectory]
            ++ failed_rounds c errs ++ [EvWriteln t MsgDirectoryNotFound]).
    assert (Hpe : process_events
                    ([EvWriteln t MsgWaitingForDirectory]
                     ++ failed_rounds c errs
                     ++ [EvWriteln t MsgDirectoryNotFound]) = [])
      by (rewrite !process_events_app, process_events_failed_rounds; reflexivity).
    rewrite Hpe, !probes_app, !sleeps_app,
      probes_failed_rounds, sleeps_failed_rounds.
    cbn [probes sleeps flat_map app].
    rewrite !app_nil_r, length_map, list_sum_repeat.
    repeat split; auto; try lia; try discriminate.
    exists ([EvWriteln t MsgWaitingForDirectory]
            ++ failed_rounds c errs ++ [EvWriteln t MsgDirectoryNotFound]), [].
    rewrite app_nil_r. split; [reflexivity | ]. auto.
  - exists errs, true.
    rewrite ready_trace_split.
    destruct (command_phase_quiet _ _ _ Hc) as (Hp & Hsl & _).
    assert (Hpe : process_events
                    ([EvWriteln t MsgWaitingForDirectory]
                     ++ failed_rounds c errs
                     ++ [EvReaddir c "/react" (Ok tt);
                         EvWriteln t MsgDirectoryReady;
                         EvWriteln t MsgAutoStartBegins]) = [])
      by (rewrite !process_events_app, process_events_failed_rounds; reflexivity).
    rewrite !probes_app, !sleeps_app, probes_failed_rounds, sleeps_failed_rounds,
      Hp, Hsl.
    cbn [probes sleeps flat_map app].
    rewrite !app_nil_r, length_app, length_map, list_sum_repeat. simpl length.
    repeat split; auto; try lia; try discriminate.
    exists ([EvWriteln t MsgWaitingForDirectory]
            ++ failed_rounds c errs
            ++ [EvReaddir c "/react" (Ok tt); EvWriteln t MsgDirectoryReady;
                EvWriteln t MsgAutoStartBegins]), cmds.
    split; [reflexivity | ]. auto.
Qed.

(** C4: once the probe of [/react] has succeeded, [executeAutoCommands]
    spawns [pnpm install] in [/react] and awaits its exit; when that exit
    code is 0, and only then, it spawns [pnpm dev] in [/react], whose exit
    it does not await; nothing else is spawned or awaited. *)
Theorem executeAutoCommands_runs_commands c t (s : state) r s' tr :
  executeAutoCommands c t s = (r, s', tr) ->
  In (EvReaddir c "/react" (Ok tt)) tr ->
  r = Ok tt /\
  ((exists e,
      process_events tr =
        [EvSpawn c "pnpm" ["install"]
                 {| cwd := Some "/react"; terminal_size := None |} (Throw e)]) \/
   (exists p1 e,
      process_events tr =
        [EvSpawn c "pnpm" ["install"]
                 {| cwd := Some "/react"; terminal_size := None |} (Ok p1);
         EvExit p1 (Throw e)]) \/
   (exists p1 exitCode,
      exitCode <> 0%Z /\
      process_events tr =
        [EvSpawn c "pnpm" ["install"]
                 {| cwd := Some "/react"; terminal_size := None |} (Ok p1);
         EvExit p1 (Ok exitCode)]) \/
   (exists p1 r2,
      process_events tr =
        [EvSpawn c "pnpm" ["install"]
                 {| cwd := Some "/react"; terminal_size := None |} (Ok p1);
         EvExit p1 (Ok 0%Z);
         EvSpawn c "pnpm" ["dev"]
                 {| cwd := Some "/react"; terminal_size := None |} r2])).
Proof.
  intros H Hin.
  destruct (executeAutoCommands_trace c t s)
    as (s1 & errs & tail & Hrun & _ & _ & Hcases).
  rewrite Hrun in H. inversion H; subst; clear H. split; [reflexivity | ].
  destruct Hcases as [(Hl & ->) | (Hl & cmds & -> & Hc)].
  - exfalso. destruct Hin as [Hin | Hin]; [discriminate | ].
    apply in_app_iff in Hin. destruct Hin as [Hin | [Hin | []]];
      [ | discriminate].
    exact (failed_rounds_no_success _ _ _ _ Hin).
  - rewrite ready_trace_split.
    rewrite !process_events_app, process_events_failed_rounds. simpl.
    inversion Hc; subst; simpl; eauto 10.
Qed.

(** An error of a spawn or of an awaited exit ends the command phase, after
    it has been logged and written to the terminal. *)
Lemma command_phase_errors c t (cmds : list event) e :
  command_phase c t cmds ->
  In e (command_errors cmds) ->
  exists pre, cmds = pre ++ [EvConsoleError e; EvWriteln t (MsgAutoStartFailed e)].
Proof.
  intros Hc He. inversion Hc; subst; simpl in He;
    try contradiction; destruct He as [<- | []].
  - eexists [_; _; _]. reflexivity.
  - eexists [_; _; _; _; _]. reflexivity.
  - eexists [_; _; _; _; _; _; _; _; _]. reflexivity.
Qed.

Lemma spawned_app name (t1 t2 : list event) :
  spawned name (t1 ++ t2) = spawned name t1 ++ spawned name t2.
Proof. apply flat_map_app. Qed.

Lemma spawned_failed_rounds name c errs : spawned name (failed_rounds c errs) = [].
Proof.
  induction errs as [ | e errs IH]; [reflexivity | ].
  rewrite failed_rounds_cons, spawned_app, IH. reflexivity.
Qed.

(** [executeAutoCommands] changes neither the store nor the panel, spawns
    no shell, and pipes nothing but the output of its commands. *)
Lemma executeAutoCommands_facts c t (s : state) r s' tr :
  executeAutoCommands c t s = (r, s', tr) ->
  r = Ok tt /\ store s' = store s /\ panel s' = panel s /\
  spawned "jsh" tr = [] /\
  (forall e, In e (wirings tr) -> exists p, e = EvPipeTo p (CbCommandOutput t)).
Proof.
  intros H.
  destruct (executeAutoCommands_trace c t s)
    as (s1 & errs & tail & Hrun & Hs & Hp & Hcases).
  rewrite Hrun in H. inversion H; subst; clear H.
  repeat split; auto.
  - destruct Hcases as [(Hl & ->) | (Hl & cmds & -> & Hc)].
    + change (EvWriteln t MsgWaitingForDirectory
              :: failed_rounds c errs ++ [EvWriteln t MsgDirectoryNotFound])
        with ([EvWriteln t MsgWaitingForDirectory]
              ++ failed_rounds c errs ++ [EvWriteln t MsgDirectoryNotFound]).
      rewrite !spawned_app, spawned_failed_rounds. reflexivity.
    + rewrite ready_trace_split, !spawned_app, spawned_failed_rounds.
      inversion Hc; subst; reflexivity.
  - intros e.
    destruct Hcases as [(Hl & ->) | (Hl & cmds & -> & Hc)].
    + change (EvWriteln t MsgWaitingForDirectory
              :: failed_rounds c errs ++ [EvWriteln t MsgDirectoryNotFound])
        with ([EvWriteln t MsgWaitingForDirectory]
              ++ failed_rounds c errs ++ [EvWriteln t MsgDirectoryNotFound]).
      rewrite !wirings_app, wirings_failed_rounds. simpl. tauto.
    + rewrite ready_trace_split, !wirings_app, wirings_failed_rounds.
      inversion Hc; subst; simpl; intros Hin;
        repeat match goal with
        | H : _ \/ _ |- _ => destruct H
        | H : False |- _ => destruct H
        end; subst; eauto.
Qed.

(** The runs of [init]: either the shell is spawned, after the setup of
    the terminal and before the wiring and the commands, or no shell is
    spawned and nothing is wired or written. *)
Lemma init_inv auto (s : state) r s' tr :
  init auto s = (r, s', tr) ->
  (exists c t size sh s1 tail,
      captured_instance (panel s) = Some c /\
      (if auto then executeAutoCommands c t s1 = (r, s', tail)
       else tail = [] /\ r = Ok tt /\ s' = s1) /\
      tr = terminal_setup t
           ++ EvSpawn c "jsh" [] {| cwd := None; terminal_size := Some size |} (Ok sh)
              :: shell_wiring t sh ++ tail /\
      store s1 = store s /\
      terminal (panel s1) = Some t /\ shell (panel s1) = Some sh /\
      fitAddon (panel s1) = true) \/
  (spawned "jsh" tr = [] /\ wirings tr = [] /\ lines tr = [] /\ probes tr = [] /\
   store s' = store s).
Proof.
  unfold init. intros H.
  repeat (inv_light; try (right; repeat split; reflexivity)).
  cbn [panel with_panel with_world captured_instance terminalRef terminal] in *.
  destruct (captured_instance (panel s)) as [c | ] eqn:Hc;
    [ destruct (terminalRef (panel s) && negb (is_some (terminal (panel s)))) | ];
    repeat (inv_light; try (right; repeat split; reflexivity)).
  all: cbn [panel with_panel with_world terminal] in *.
  all: repeat (inv_light; try (right; repeat split; reflexivity)).
  all: cbn [executeAutoCommands_on] in *.
  all: left; destruct auto; repeat inv_light; do 6 eexists.
  all: (split; [reflexivity | ]).
  all: (split; [first [eassumption | repeat split; reflexivity] | ]).
  all: (split; [simpl; rewrite ?app_nil_r; reflexivity | ]).
  all: simpl; auto.
Qed.

(** The shell spawned by a run of [init], and the shape of the run. *)
Lemma init_spawns_shell auto (s : state) r s' tr sh :
  init auto s = (r, s', tr) ->
  In sh (spawned "jsh" tr) ->
  exists c t size s1 tail,
    captured_instance (panel s) = Some c /\
    (if auto then executeAutoCommands c t s1 = (r, s', tail)
     else tail = [] /\ r = Ok tt /\ s' = s1) /\
    tr = terminal_setup t
         ++ EvSpawn c "jsh" [] {| cwd := None; terminal_size := Some size |} (Ok sh)
            :: shell_wiring t sh ++ tail /\
    store s1 = store s /\
    terminal (panel s1) = Some t /\ shell (panel s1) = Some sh /\
    fitAddon (panel s1) = true /\
    panel s' = panel s1 /\ store s' = store s.
Proof.
  intros H Hin. apply init_inv in H.
  destruct H as [(c & t & size & sh' & s1 & tail & Hc & Hauto & -> & Hst & Ht & Hsh & Hf)
                | (Hnone & _)].
  2: { rewrite Hnone in Hin. destruct Hin. }
  assert (Htail : spawned "jsh" tail = [] /\ panel s' = panel s1 /\ store s' = store s1).
  { destruct auto.
    - apply executeAutoCommands_facts in Hauto. tauto.
    - destruct Hauto as (-> & _ & ->). auto. }
  destruct Htail as (Htail & Hp' & Hs').
  change (EvSpawn c "jsh" [] {| cwd := None; terminal_size := Some size |} (Ok sh')
          :: shell_wiring t sh' ++ tail)
    with ([EvSpawn c "jsh" [] {| cwd := None; terminal_size := Some size |} (Ok sh')]
          ++ shell_wiring t sh' ++ tail) in Hin.
  rewrite !spawned_app, Htail in Hin. simpl in Hin.
  destruct Hin as [<- | []].
  exists c, t, size, s1, tail. repeat split; auto. congruence.
Qed.

(** ** [init] by segments *)

(** A run of [init] during which the cleanup does not run is its two
    segments run one after the other. *)
Lemma init_by_segments auto (s : state) :
  init auto s =
  bind init_until_spawn
       (fun spawned_shell =>
          match spawned_shell with
          | Some (c, sh) => init_after_spawn auto c sh
          | None => ret tt
          end) s.
Proof.
  unfold init_until_spawn, init, init_after_spawn.
  repeat (rewrite bind_assoc_run; apply bind_ext_run; intros ? ?).
  destruct (captured_instance _) as [c | ];
    [ | rewrite bind_ret_run; reflexivity].
  destruct (terminalRef _ && negb (is_some (terminal _)));
    [ | rewrite bind_ret_run; reflexivity].
  repeat (rewrite bind_assoc_run; apply bind_ext_run; intros ? ?).
  rewrite bind_ret_run. reflexivity.
Qed.

(** The first segment of [init]: nothing is wired, no line is written and
    no directory is probed before the spawn of the shell, and the segment
    hands over a shell only when its last step is the spawn that resolved
    to it. *)
Lemma init_until_spawn_inv (s : state) r s' tr :
  init_until_spawn s = (r, s', tr) ->
  wirings tr = [] /\ lines tr = [] /\ probes tr = [] /\
  forall c sh, r = Ok (Some (c, sh)) ->
    exists t size,
      tr = terminal_setup t
           ++ [EvSpawn c "jsh" [] {| cwd := None; terminal_size := Some size |}
                       (Ok sh)] /\
      terminal (panel s') = Some t.
Proof.
  unfold init_until_spawn. intros H.
  repeat (inv_light; try (repeat split; try reflexivity; intros; discriminate)).
  cbn [panel with_panel with_world captured_instance terminalRef terminal] in *.
  destruct (captured_instance (panel s)) as [c | ] eqn:Hc;
    [ destruct (terminalRef (panel s) && negb (is_some (terminal (panel s)))) | ];
    repeat (inv_light; try (repeat split; try reflexivity; intros; discriminate)).
  repeat split; try reflexivity.
  intros c' sh' Heq. inversion Heq; subst. eexists _, _. split; reflexivity.
Qed.

(** With the variable [terminal] cleared, the call throws out of its own
    [catch]. *)
Lemma executeAutoCommands_on_null c (s : state) :
  executeAutoCommands_on c None s =
  (Throw TypeError,
   with_world s (react (EvConsoleError TypeError) (world s)),
   [EvConsoleError TypeError]).
Proof. reflexivity. Qed.

(** What the call of [executeAutoCommands] on the variable wires. *)
Lemma executeAutoCommands_on_facts c terminal (s : state) r s' tr :
  executeAutoCommands_on c terminal s = (r, s', tr) ->
  store s' = store s /\ panel s' = panel s /\
  (forall e, In e (wirings tr) ->
     exists p t, terminal = Some t /\ e = EvPipeTo p (CbCommandOutput t)) /\
  (terminal = None -> r = Throw TypeError /\ tr = [EvConsoleError TypeError]) /\
  (terminal <> None -> r = Ok tt).
Proof.
  intros H. destruct terminal as [t | ].
  - cbn [executeAutoCommands_on] in H. apply executeAutoCommands_facts in H.
    destruct H as (-> & Hs & Hp & _ & Hw).
    repeat split; auto; try discriminate.
    intros e He. destruct (Hw e He) as [p ->]. eauto.
  - rewrite executeAutoCommands_on_null in H. inversion H; subst.
    repeat split; auto. intros e []. intros Hne. contradiction Hne. reflexivity.
Qed.

(** The second segment of [init]: the output of the shell is piped to the
    sink, and [onData] is registered on the terminal that the variable
    holds when the segment starts, if it holds one. *)
Lemma init_after_spawn_inv auto c sh (s : state) r s' tr :
  init_after_spawn auto c sh s = (r, s', tr) ->
  exists s1 tail,
    tr = [EvAddEventListener "resize" CbWindowResize;
          EvPipeTo sh CbShellOutput; EvGetWriter sh]
         ++ match terminal (panel s) with
            | Some t => [EvOnData t (CbTerminalData sh)]
            | None => []
            end
         ++ tail /\
    (if auto then executeAutoCommands_on c (terminal (panel s)) s1 = (r, s', tail)
     else tail = [] /\ r = Ok tt /\ s' = s1) /\
    store s1 = store s /\
    terminal (panel s1) = terminal (panel s) /\
    shell (panel s1) = Some sh.
Proof.
  unfold init_after_spawn. intros H.
  repeat inv_light.
  all: cbn [panel with_panel with_world terminal] in *.
  all: destruct (terminal (panel s)) as [t | ] eqn:Ht; repeat inv_light.
  all: destruct auto; repeat inv_light; eexists _, _.
  all: (split; [simpl; rewrite ?app_nil_r; reflexivity | ]).
  all: (split; [first [eassumption | repeat split; reflexivity] | ]).
  all: simpl; auto.
Qed.

(** A pipe is a wiring. *)
Lemma piped_wirings (tr : list event) p sink :
  In (p, sink) (piped tr) -> In (EvPipeTo p sink) (wirings tr).
Proof.
  induction tr as [ | e tr IH]; simpl; [tauto | ].
  destruct e; simpl; auto.
  intros [Heq | Hin]; [inversion Heq; subst; left; reflexivity | right; auto].
Qed.

(** The chunks handed to the sink of the output of the shell are written
    to the terminal that the variable holds, and dropped when it holds
    none. *)
Lemma deliver_shell_output chunks : forall (s : state),
  exists w,
    deliver CbShellOutput chunks s =
    (Ok tt, with_world s w,
     match terminal (panel s) with
     | Some t => map (EvTermWrite t) chunks
     | None => []
     end).
Proof.
  induction chunks as [ | data rest IH]; intros s; simpl.
  - exists (world s). unfold ret. destruct s; simpl.
    destruct (terminal _); reflexivity.
  - unfold bind at 1. unfold bind at 1, get_panel.
    destruct (terminal (panel s)) as [t | ] eqn:Ht.
    + unfold emit. cbn [fst snd].
      destruct (IH (with_world s (react (EvTermWrite t data) (world s))))
        as [w Hw].
      rewrite Hw. cbn [panel with_world]. rewrite Ht.
      exists w. reflexivity.
    + unfold ret. destruct (IH s) as [w Hw]. rewrite Hw, Ht.
      exists w. reflexivity.
Qed.

(** The chunks handed to the sink of the output of a command are written
    to the terminal that [executeAutoCommands] was called with. *)
Lemma deliver_command_output t chunks : forall (s : state),
  exists w,
    deliver (CbCommandOutput t) chunks s =
    (Ok tt, with_world s w, map (EvTermWrite t) chunks).
Proof.
  induction chunks as [ | data rest IH]; intros s; simpl.
  - exists (world s). unfold ret. destruct s; reflexivity.
  - unfold bind, emit.
    destruct (IH (with_world s (react (EvTermWrite t data) (world s))))
      as [w Hw].
    rewrite Hw. exists w. reflexivity.
Qed.

(** The data handed to the handler of the terminal is written to the
    input of the shell. *)
Lemma deliver_terminal_data sh chunks : forall (s : state),
  exists w,
    deliver (CbTerminalData sh) chunks s =
    (Ok tt, with_world s w, map (EvInputWrite sh) chunks).
Proof.
  induction chunks as [ | data rest IH]; intros s; simpl.
  - exists (world s). unfold ret. destruct s; reflexivity.
  - unfold bind, emit.
    destruct (IH (with_world s (react (EvInputWrite sh data) (world s))))
      as [w Hw].
    rewrite Hw. exists w. reflexivity.
Qed.

(** The cleanup clears the variable [terminal]. *)
Lemma cleanup_clears_terminal (s : state) :
  terminal (panel (run_state cleanup s)) = None.
Proof.
  unfold run_state, cleanup, bind, get_panel, setUrl, set, set_terminal, set_panel.
  destruct (captured_instance (panel s)), (shell (panel s)); reflexivity.
Qed.

(** C5 (as amended): once the shell is spawned, the panel pipes the output
    of the shell into a sink, and registers a handler for the data of the
    terminal that the variable [terminal] holds at that time, when it
    holds one ([terminal?.onData]).  In a run of [init] that the cleanup
    does not interrupt, these are the two streams of the shell and the
    panel wires nothing else (the only other pipes of a run are those of
    [executeAutoCommands], from the output of a command to the terminal):
    every chunk produced on the output of the shell is then written to the
    terminal, and every data event of the terminal is written to the input
    of the shell.  The sink writes a chunk to the terminal that the
    variable holds when the chunk arrives ([terminal?.write]): after the
    cleanup, which clears the variable, the chunks are dropped. *)
Theorem shell_streams_wired :
  (forall auto c sh (s : state) r s' tr,
     init_after_spawn auto c sh s = (r, s', tr) ->
     exists tail,
       wirings tr =
         EvPipeTo sh CbShellOutput
         :: match terminal (panel s) with
            | Some t => [EvOnData t (CbTerminalData sh)]
            | None => []
            end
         ++ wirings tail /\
       (auto = false -> tail = []) /\
       (forall e, In e (wirings tail) ->
          exists p t, terminal (panel s) = Some t /\
                      e = EvPipeTo p (CbCommandOutput t))) /\
  (forall auto (s : state) r s' tr sh,
     init auto s = (r, s', tr) ->
     In sh (spawned "jsh" tr) ->
     exists t tail,
       wirings tr =
         [EvPipeTo sh CbShellOutput; EvOnData t (CbTerminalData sh)]
         ++ wirings tail /\
       (auto = false -> tail = []) /\
       (forall e, In e (wirings tail) -> exists p, e = EvPipeTo p (CbCommandOutput t)) /\
       terminal (panel s') = Some t /\
       (forall sink chunks,
          In (sh, sink) (piped tr) ->
          run_trace (deliver sink chunks) s' = map (EvTermWrite t) chunks) /\
       (forall t' handler chunks (s2 : state),
          In (EvOnData t' handler) tr ->
          t' = t /\
          run_trace (deliver handler chunks) s2 = map (EvInputWrite sh) chunks)) /\
  (forall chunks (s2 : state),
     run_trace (deliver CbShellOutput chunks) s2 =
       match terminal (panel s2) with
       | Some t => map (EvTermWrite t) chunks
       | None => []
       end /\
     run_trace (deliver CbShellOutput chunks) (run_state cleanup s2) = []) /\
  (forall sh chunks (s2 : state),
     run_trace (deliver (CbTerminalData sh) chunks) s2 =
       map (EvInputWrite sh) chunks).
Proof.
  assert (Hsink : forall chunks (s2 : state),
            run_trace (deliver CbShellOutput chunks) s2 =
              match terminal (panel s2) with
              | Some t => map (EvTermWrite t) chunks
              | None => []
              end).
  { intros chunks s2. unfold run_trace.
    destruct (deliver_shell_output chunks s2) as [w ->]. reflexivity. }
  assert (Hdata : forall sh chunks (s2 : state),
            run_trace (deliver (CbTerminalData sh) chunks) s2 =
              map (EvInputWrite sh) chunks).
  { intros sh chunks s2. unfold run_trace.
    destruct (deliver_terminal_data sh chunks s2) as [w ->]. reflexivity. }
  split; [ | split; [ | split]].
  - intros auto c sh s r s' tr H.
    apply init_after_spawn_inv in H.
    destruct H as (s1 & tail & -> & Hauto & _).
    exists tail. split; [ | split].
    + rewrite !wirings_app. destruct (terminal (panel s)); reflexivity.
    + intros ->. tauto.
    + destruct auto.
      * apply executeAutoCommands_on_facts in Hauto. tauto.
      * destruct Hauto as (-> & _). intros e [].
  - intros auto s r s' tr sh H Hin.
    destruct (init_spawns_shell _ _ _ _ _ _ H Hin)
      as (c & t & size & s1 & tail & Hc & Hauto & -> & _ & Ht & _ & _ & Hp' & _).
    assert (Htail : forall e, In e (wirings tail) ->
                      exists p, e = EvPipeTo p (CbCommandOutput t)).
    { destruct auto.
      - apply executeAutoCommands_facts in Hauto. tauto.
      - destruct Hauto as (-> & _). intros e []. }
    assert (Hw : wirings
                   (terminal_setup t
                    ++ EvSpawn c "jsh" []
                         {| cwd := None; terminal_size := Some size |} (Ok sh)
                       :: shell_wiring t sh ++ tail) =
                 [EvPipeTo sh CbShellOutput; EvOnData t (CbTerminalData sh)]
                 ++ wirings tail).
    { change (EvSpawn c "jsh" [] {| cwd := None; terminal_size := Some size |} (Ok sh)
              :: shell_wiring t sh ++ tail)
        with ([EvSpawn c "jsh" [] {| cwd := None; terminal_size := Some size |} (Ok sh)]
              ++ shell_wiring t sh ++ tail).
      rewrite !wirings_app. reflexivity. }
    assert (Ht' : terminal (panel s') = Some t) by congruence.
    exists t, tail. split; [exact Hw | ]. split; [intros ->; tauto | ].
    split; [exact Htail | ]. split; [exact Ht' | ]. split.
    + intros sink chunks Hp. apply piped_wirings in Hp. rewrite Hw in Hp.
      destruct Hp as [Heq | [Heq | Hp]]; try discriminate.
      * inversion Heq; subst. rewrite Hsink, Ht'. reflexivity.
      * destruct (Htail _ Hp) as [p Heq]. inversion Heq; subst.
        unfold run_trace.
        destruct (deliver_command_output t chunks s') as [w ->]. reflexivity.
    + intros t' handler chunks s2 Hd.
      assert (Hd' : In (EvOnData t' handler)
                       (wirings
                          (terminal_setup t
                           ++ EvSpawn c "jsh" []
                                {| cwd := None; terminal_size := Some size |} (Ok sh)
                              :: shell_wiring t sh ++ tail)))
        by (apply filter_In; split; [exact Hd | reflexivity]).
      rewrite Hw in Hd'.
      destruct Hd' as [Heq | [Heq | Hd']]; try discriminate.
      * inversion Heq; subst. split; [reflexivity | apply Hdata].
      * destruct (Htail _ Hd') as [p Heq]. discriminate.
  - intros chunks s2. split; [apply Hsink | ].
    rewrite Hsink, cleanup_clears_terminal. reflexivity.
  - exact Hdata.
Qed.


(** C8: the cleanup removes the root [/] of the container recursively
    when the render has a container, kills the shell when one was spawned,
    sets the url of the store to the empty string and clears the terminal
    variable; it touches nothing else of the store or of the panel. *)
Theorem cleanup_tears_down (s : state) :
  exists s',
    cleanup s =
      (Ok tt, s',
       match captured_instance (panel s) with
       | Some c => [EvRm c "/" true]
       | None => []
       end
       ++ match shell (panel s) with
          | Some sh => [EvKill sh]
          | None => []
          end
       ++ [EvSet {| set_webContainerInstance := None; set_isInitialized := None;
                    set_url := Some "" |}]) /\
    url (store s') = "" /\
    terminal (panel s') = None /\
    webContainerInstance (store s') = webContainerInstance (store s) /\
    isInitialized (store s') = isInitialized (store s) /\
    shell (panel s') = shell (panel s) /\
    captured_instance (panel s') = captured_instance (panel s).
Proof.
  unfold cleanup, bind, get_panel, setUrl, set, set_terminal, set_panel.
  destruct (captured_instance (panel s)) as [c | ] eqn:Hc;
    destruct (shell (panel s)) as [sh | ] eqn:Hsh; simpl;
    eexists; (split; [reflexivity | ]); simpl; repeat split; assumption.
Qed.

(** C7: a call of [initWebContainer] on a fresh store that completes boots
    the container, then writes the cached project (the project parsed from
    what the lookup of the call resolved to, and there is one whenever the
    lookup gave a text that is not empty), then the current directory (as
    [curDirectory] is when the cached project has been written), then
    registers the 'server-ready' listener, and last of all sets the store
    initialized.  In the terminal panel nothing is wired and no line of the
    commands is written unless the shell was spawned, and then the spawn
    comes first: the wiring and then the commands follow; this is so also
    when the cleanup runs while the spawn is awaited, as the part of [init]
    up to the spawn wires nothing and writes no line. *)
Theorem lifecycle_sequencing :
  (forall projectId (s : state) s' tr,
     webContainerInstance (store s) = None ->
     isInitialized (store s) = false ->
     initWebContainer projectId s = (Ok tt, s', tr) ->
     let key := match projectId with Some k => k | None => "" end in
     exists info c w1 w2 w4,
       localforage_getItem key (world s) = (Ok info, w1) /\
       WebContainer_boot (react (EvConsoleLog "projectInfo") w1) = (Ok c, w2) /\
       match cached_project info with
       | Some d =>
           writeDirByLocal d (Some c)
             (react (EvConsoleLog "projectFileData")
                    (react (EvConsoleLog "newWebContainerInstance") w2)) = (Ok tt, w4)
       | None => w4 = react (EvConsoleLog "newWebContainerInstance") w2
       end /\
       (truthy_item info = true -> cached_project info <> None) /\
       tr = [EvGetItem key (Ok info); EvConsoleLog "projectInfo";
             EvBoot (Ok c); EvConsoleLog "newWebContainerInstance"]
            ++ seeding "projectFileData" (cached_project info) (Some c) (Ok tt)
            ++ seeding "curDirectory" (curDirectory w4) (Some c) (Ok tt)
            ++ [EvOn c "server-ready" CbServerReady;
                EvSet (instance_initialized (Some c))] /\
       webContainerInstance (store s') = Some c /\
       isInitialized (store s') = true) /\
  (forall auto (s : state) r s' tr,
     init auto s = (r, s', tr) ->
     (spawned "jsh" tr = [] ->
      wirings tr = [] /\ lines tr = [] /\ probes tr = []) /\
     (forall sh,
        In sh (spawned "jsh" tr) ->
        exists c t size s1 tail,
          tr = terminal_setup t
               ++ EvSpawn c "jsh" []
                    {| cwd := None; terminal_size := Some size |} (Ok sh)
                  :: shell_wiring t sh ++ tail /\
          wirings (terminal_setup t) = [] /\
          lines (terminal_setup t) = [] /\
          probes (terminal_setup t) = [] /\
          (if auto then executeAutoCommands c t s1 = (r, s', tail)
           else tail = []))) /\
  (forall (s : state) r s' tr,
     init_until_spawn s = (r, s', tr) ->
     wirings tr = [] /\ lines tr = [] /\ probes tr = [] /\
     forall c sh, r = Ok (Some (c, sh)) ->
       exists t size,
         tr = terminal_setup t
              ++ [EvSpawn c "jsh" []
                    {| cwd := None; terminal_size := Some size |} (Ok sh)]).
Proof.
  split; [ | split].
  - intros projectId s s' tr Hnone Hfalse H.
    assert (Hn : needs_boot (store s) = true)
      by (unfold needs_boot; rewrite Hnone, Hfalse; reflexivity).
    exact (fresh_boot_sequence _ _ _ _ Hn H).
  - intros auto s r s' tr H. split.
    + intros Hnone. apply init_inv in H.
      destruct H as [(c & t & size & sh' & s1 & tail & _ & _ & -> & _)
                    | (_ & Hw & Hl & Hp & _)]; [ | auto].
      change (EvSpawn c "jsh" [] {| cwd := None; terminal_size := Some size |} (Ok sh')
              :: shell_wiring t sh' ++ tail)
        with ([EvSpawn c "jsh" [] {| cwd := None; terminal_size := Some size |} (Ok sh')]
              ++ shell_wiring t sh' ++ tail) in Hnone.
      rewrite !spawned_app in Hnone. simpl in Hnone. discriminate.
    + intros sh Hin.
      destruct (init_spawns_shell _ _ _ _ _ _ H Hin)
        as (c & t & size & s1 & tail & _ & Hauto & -> & _).
      exists c, t, size, s1, tail. repeat split.
      destruct auto; tauto.
  - intros s r s' tr H. apply init_until_spawn_inv in H.
    destruct H as (Hw & Hl & Hp & Hsh). repeat split; auto.
    intros c sh Hr. destruct (Hsh c sh Hr) as (t & size & -> & _). eauto.
Qed.

(** * Further properties *)

(** ** More on the store *)

Lemma write_targets_app (t1 t2 : list event) :
  write_targets (t1 ++ t2) = write_targets t1 ++ write_targets t2.
Proof. apply flat_map_app. Qed.

Lemma write_targets_seeding tag (d : option dirdata) target r x :
  In x (write_targets (seeding tag d target r)) -> x = target.
Proof. destruct d; simpl; intros H; [destruct H as [<- | []] | destruct H]; auto. Qed.

(** A call that throws has registered no listener. *)
Lemma initWebContainer_throws_no_listener projectId (s : state) e s' tr name :
  initWebContainer projectId s = (Throw e, s', tr) ->
  listeners_on name tr = [].
Proof.
  unfold initWebContainer. intros H.
  inv_run; cbn [store with_world] in *.
  all: try reflexivity.
  all: destruct (needs_boot _); inv_run.
  all: repeat match goal with
  | H : write_cached_project _ _ _ _ = _ |- _ =>
      apply write_cached_project_trace in H; destruct H as (? & ? & ? & ? & ->)
  | H : write_current_directory _ _ _ = _ |- _ =>
      apply write_current_directory_inv in H; destruct H as (? & ? & -> & _)
  | H : match ?x with _ => _ end _ = _ |- _ => destruct x; inv_run
  end; simpl in *; rewrite ?listeners_on_app, ?listeners_on_seeding; reflexivity.
Qed.

(** X1: a call of [initWebContainer] that throws is without effect on the
    application: the store and the panel are as before, [set] was not
    called and no listener was registered. *)
Theorem initWebContainer_failure_is_atomic projectId (s : state) e s' tr :
  initWebContainer projectId s = (Throw e, s', tr) ->
  store s' = store s /\ panel s' = panel s /\
  sets tr = [] /\ listeners_on "server-ready" tr = [].
Proof.
  intros H. pose proof (initWebContainer_throws _ _ _ _ _ H) as (Hs & Hp & Hsets).
  repeat split; auto. eapply initWebContainer_throws_no_listener; eauto.
Qed.

Lemma initWebContainer_url projectId (s : state) r s' tr :
  initWebContainer projectId s = (r, s', tr) ->
  url (store s') = url (store s) /\ panel s' = panel s.
Proof.
  intros H. destruct r as [[] | e].
  - destruct (needs_boot (store s)) eqn:Hn.
    + destruct (initWebContainer_fresh_completes _ _ _ _ Hn H)
        as (info & c & pfd & cur & _ & -> & Hp). auto.
    + destruct (initWebContainer_again_completes _ _ _ _ Hn H)
        as (info & pfd & cur & _ & -> & Hp). auto.
  - apply initWebContainer_throws in H. destruct H as (-> & -> & _). auto.
Qed.

(** X2: no call of [initWebContainer], completed or not, changes the url
    of the store or a variable of the terminal panel. *)
Theorem initWebContainer_keeps_url_and_panel projectId (s : state) r s' tr :
  initWebContainer projectId s = (r, s', tr) ->
  url (store s') = url (store s) /\ panel s' = panel s.
Proof.
  intros H. destruct (initWebContainer_url _ _ _ _ _ H) as [Hu Hp].
  split; assumption.
Qed.

(** X3: in a call that completes, every [writeDirByLocal] is given the
    instance that the store holds after the call: the container just
    booted, the one already held, or [null] when the store was marked
    initialized without an instance. *)
Theorem initWebContainer_writes_into_stored_instance projectId (s : state) s' tr :
  initWebContainer projectId s = (Ok tt, s', tr) ->
  forall target, In target (write_targets tr) ->
                 target = webContainerInstance (store s').
Proof.
  intros H target Hin. destruct (needs_boot (store s)) eqn:Hn.
  - destruct (initWebContainer_fresh_completes _ _ _ _ Hn H)
      as (info & c & pfd & cur & -> & -> & _).
    rewrite !write_targets_app in Hin. simpl in Hin.
    repeat (apply in_app_or in Hin; destruct Hin as [Hin | Hin]);
      try (apply write_targets_seeding in Hin; subst; reflexivity);
      destruct Hin.
  - destruct (initWebContainer_again_completes _ _ _ _ Hn H)
      as (info & pfd & cur & -> & -> & _).
    rewrite !write_targets_app in Hin. simpl in Hin.
    repeat (apply in_app_or in Hin; destruct Hin as [Hin | Hin]);
      try (apply write_targets_seeding in Hin; subst; reflexivity).
    + destruct (webContainerInstance (store s)); destruct Hin.
    + destruct Hin.
Qed.

Lemma boots_nil_of_length (tr : list event) : length (boots tr) = 0 -> boots tr = [].
Proof. destruct (boots tr); [reflexivity | discriminate]. Qed.

(** One call on a store that is marked initialized and holds no instance. *)
Lemma initWebContainer_marked projectId (s : state) r s' tr :
  initWebContainer projectId s = (r, s', tr) ->
  isInitialized (store s) = true ->
  webContainerInstance (store s) = None ->
  boots tr = [] /\ webContainerInstance (store s') = None /\
  isInitialized (store s') = true /\ listeners_on "server-ready" tr = [].
Proof.
  intros H Hi Hn.
  assert (Hnb : needs_boot (store s) = false)
    by (unfold needs_boot; rewrite Hi; reflexivity).
  pose proof (initWebContainer_boot_calls _ _ _ _ _ H) as Hb.
  rewrite Hnb in Hb. simpl in Hb. apply boots_nil_of_length in Hb.
  destruct r as [[] | e].
  - apply initWebContainer_completes in H.
    destruct H as (Hi' & _ & Hsame & Hl & _).
    specialize (Hsame Hnb). rewrite Hn in Hsame. rewrite Hsame in Hl. auto.
  - pose proof (initWebContainer_throws_no_listener _ _ _ _ _ "server-ready" H) as Hl.
    apply initWebContainer_throws in H. destruct H as (-> & _ & _). auto.
Qed.

Lemma initWebContainer_calls_marked calls : forall (s : state) r s' tr,
  initWebContainer_calls calls s = (r, s', tr) ->
  isInitialized (store s) = true ->
  webContainerInstance (store s) = None ->
  boots tr = [] /\ webContainerInstance (store s') = None /\
  listeners_on "server-ready" tr = [].
Proof.
  induction calls as [ | p rest IH]; intros s r s' tr H Hi Hn; simpl in H.
  - inv_run. auto.
  - apply bind_inv in H.
    destruct H as [(a & s1 & t1 & t2 & H1 & H2 & ->) | (e & H1 & ->)].
    + destruct (initWebContainer_marked _ _ _ _ _ H1 Hi Hn) as (Hb & Hn1 & Hi1 & Hl).
      destruct (IH _ _ _ _ H2 Hi1 Hn1) as (Hb2 & Hn2 & Hl2).
      rewrite boots_app, listeners_on_app, Hb, Hb2, Hl, Hl2. auto.
    + destruct (initWebContainer_marked _ _ _ _ _ H1 Hi Hn) as (Hb & Hn1 & _ & Hl).
      auto.
Qed.

(** X4: when [setInitialized(true)] is called on a store that holds no
    instance, no later call of [initWebContainer] boots a container: the
    calls take the other branch, the store stays without an instance and
    no 'server-ready' listener is registered, however many calls follow. *)
Theorem marked_initialized_never_boots calls (s : state) r s' tr :
  webContainerInstance (store s) = None ->
  bind (setInitialized true) (fun _ => initWebContainer_calls calls) s = (r, s', tr) ->
  boots tr = [] /\ webContainerInstance (store s') = None /\
  listeners_on "server-ready" tr = [].
Proof.
  intros Hn H. apply bind_inv in H.
  destruct H as [(a & s1 & t1 & t2 & H1 & H2 & ->) | (e & H1 & ->)];
    unfold setInitialized in H1; apply set_inv in H1;
    destruct H1 as (Hr & -> & ->); [ | discriminate].
  apply initWebContainer_calls_marked in H2; simpl; auto.
Qed.

(** The run of [cleanup]. *)
Lemma cleanup_run (s : state) :
  exists w,
    cleanup s =
      (Ok tt,
       {| world := w;
          store := {| webContainerInstance := webContainerInstance (store s);
                      isInitialized := isInitialized (store s);
                      url := "" |};
          panel := {| captured_instance := captured_instance (panel s);
                      terminalRef := terminalRef (panel s);
                      shell := shell (panel s);
                      terminal := None;
                      fitAddon := fitAddon (panel s);
                      webLinksAddon := webLinksAddon (panel s);
                      webglAddon := webglAddon (panel s) |} |},
       match captured_instance (panel s) with
       | Some c => [EvRm c "/" true]
       | None => []
       end
       ++ match shell (panel s) with
          | Some sh => [EvKill sh]
          | None => []
          end
       ++ [EvSet {| set_webContainerInstance := None; set_isInitialized := None;
                    set_url := Some "" |}]).
Proof.
  unfold cleanup, bind, get_panel, setUrl, set, set_terminal, set_panel.
  destruct (captured_instance (panel s)) as [c | ] eqn:Hc;
    destruct (shell (panel s)) as [sh | ] eqn:Hsh; simpl;
    rewrite ?Hc, ?Hsh; eexists; reflexivity.
Qed.

(** X5: the cleanup of the panel keeps the instance of the store, so that a
    call of [initWebContainer] after it boots nothing: when it completes
    the store holds the same container, marked initialized, with an empty
    url, one more listener on it, and the files it wrote went into it. *)
Theorem cleanup_then_initWebContainer projectId c (s : state) s' tr :
  webContainerInstance (store s) = Some c ->
  bind cleanup (fun _ => initWebContainer projectId) s = (Ok tt, s', tr) ->
  boots tr = [] /\
  webContainerInstance (store s') = Some c /\
  isInitialized (store s') = true /\
  url (store s') = "" /\
  listeners_on "server-ready" tr = [c] /\
  (forall target, In target (write_targets tr) -> target = Some c).
Proof.
  intros Hc H. apply bind_inv in H.
  destruct H as [(a & s1 & t1 & t2 & H1 & H2 & ->) | (e & _ & He)];
    [ | discriminate].
  destruct (cleanup_run s) as [w Hrun]. rewrite Hrun in H1.
  inversion H1; subst; clear H1.
  assert (Hn : needs_boot
                 (store {| world := w;
                           store := {| webContainerInstance := webContainerInstance (store s);
                                       isInitialized := isInitialized (store s);
                                       url := "" |};
                           panel := {| captured_instance := captured_instance (panel s);
                                       terminalRef := terminalRef (panel s);
                                       shell := shell (panel s);
                                       terminal := None;
                                       fitAddon := fitAddon (panel s);
                                       webLinksAddon := webLinksAddon (panel s);
                                       webglAddon := webglAddon (panel s) |} |}) = false).
  { unfold needs_boot. simpl. rewrite Hc. apply andb_false_r. }
  destruct (initWebContainer_again_completes _ _ _ _ Hn H2)
    as (info & pfd & cur & -> & -> & _).
  simpl store. simpl webContainerInstance. rewrite Hc.
  rewrite !boots_app, !listeners_on_app, !write_targets_app,
    !boots_seeding, !listeners_on_seeding.
  assert (Hpre : forall (l : list event),
             l = match captured_instance (panel s) with
                 | Some c0 => [EvRm c0 "/" true]
                 | None => []
                 end ->
             boots l = [] /\ listeners_on "server-ready" l = [] /\ write_targets l = []).
  { intros l ->. destruct (captured_instance (panel s)); auto. }
  destruct (Hpre _ eq_refl) as (-> & -> & ->).
  assert (Hk : forall (l : list event),
             l = match shell (panel s) with
                 | Some sh => [EvKill sh]
                 | None => []
                 end ->
             boots l = [] /\ listeners_on "server-ready" l = [] /\ write_targets l = []).
  { intros l ->. destruct (shell (panel s)); auto. }
  destruct (Hk _ eq_refl) as (-> & -> & ->).
  simpl. repeat split; auto.
  intros target Hin.
  repeat (apply in_app_or in Hin; destruct Hin as [Hin | Hin]);
    try (apply write_targets_seeding in Hin; assumption);
    destruct Hin.
Qed.

(** X6: the url that a 'server-ready' event publishes stays in the store
    through a later call of [initWebContainer], completed or not; both
    listeners, the one of the first call and the one of the later calls,
    publish it. *)
Theorem server_ready_url_survives_init cb port u projectId (s : state) r s' tr :
  cb = CbServerReady \/ cb = CbServerReady11 ->
  bind (run_callback cb (ServerReady port u)) (fun _ => initWebContainer projectId) s
  = (r, s', tr) ->
  url (store s') = u.
Proof.
  intros Hcb H. apply bind_inv in H.
  destruct H as [(a & s1 & t1 & t2 & H1 & H2 & ->) | (e & H1 & ->)];
    destruct Hcb as [-> | ->]; simpl in H1; unfold serverReadyListener in H1;
    inv_run.
  all: apply initWebContainer_url in H2; destruct H2 as [-> _]; reflexivity.
Qed.

(** ** More on [executeAutoCommands] *)

Lemma lines_app (t1 t2 : list event) : lines (t1 ++ t2) = lines t1 ++ lines t2.
Proof. apply flat_map_app. Qed.
Lemma piped_app (t1 t2 : list event) : piped (t1 ++ t2) = piped t1 ++ piped t2.
Proof. apply flat_map_app. Qed.
Lemma console_errors_app (t1 t2 : list event) :
  console_errors (t1 ++ t2) = console_errors t1 ++ console_errors t2.
Proof. apply flat_map_app. Qed.
Lemma exit_codes_app (t1 t2 : list event) :
  exit_codes (t1 ++ t2) = exit_codes t1 ++ exit_codes t2.
Proof. apply flat_map_app. Qed.
Lemma spawn_requests_app (t1 t2 : list event) :
  spawn_requests (t1 ++ t2) = spawn_requests t1 ++ spawn_requests t2.
Proof. apply flat_map_app. Qed.
Lemma awaited_app (t1 t2 : list event) : awaited (t1 ++ t2) = awaited t1 ++ awaited t2.
Proof. apply flat_map_app. Qed.

(** The failed rounds write no line, pipe nothing, spawn nothing. *)
Lemma failed_rounds_silent c errs :
  lines (failed_rounds c errs) = [] /\ piped (failed_rounds c errs) = [] /\
  console_errors (failed_rounds c errs) = [] /\
  exit_codes (failed_rounds c errs) = [] /\
  spawn_requests (failed_rounds c errs) = [].
Proof.
  induction errs as [ | e errs (IH1 & IH2 & IH3 & IH4 & IH5)];
    [repeat split; reflexivity | ].
  rewrite failed_rounds_cons, lines_app, piped_app, console_errors_app,
    exit_codes_app, spawn_requests_app, IH1, IH2, IH3, IH4, IH5.
  repeat split; reflexivity.
Qed.

(** The two shapes of a run of [executeAutoCommands], as concatenations. *)
Lemma executeAutoCommands_shapes c t (s : state) r s' tr :
  executeAutoCommands c t s = (r, s', tr) ->
  exists errs,
    tr = [EvWriteln t MsgWaitingForDirectory]
         ++ failed_rounds c errs ++ [EvWriteln t MsgDirectoryNotFound] \/
    exists cmds,
      command_phase c t cmds /\
      tr = ([EvWriteln t MsgWaitingForDirectory]
            ++ failed_rounds c errs
            ++ [EvReaddir c "/react" (Ok tt); EvWriteln t MsgDirectoryReady;
                EvWriteln t MsgAutoStartBegins]) ++ cmds.
Proof.
  intros H.
  destruct (executeAutoCommands_trace c t s)
    as (s1 & errs & tail & Hrun & _ & _ & Hcases).
  rewrite Hrun in H. inversion H; subst; clear H. exists errs.
  destruct Hcases as [(_ & ->) | (_ & cmds & -> & Hc)].
  - left. reflexivity.
  - right. exists cmds. split; [assumption | apply ready_trace_split].
Qed.

Lemma console_logs_app (t1 t2 : list event) :
  console_logs (t1 ++ t2) = console_logs t1 ++ console_logs t2.
Proof. apply flat_map_app. Qed.

(** Every failed round logs its line on the console. *)
Lemma console_logs_failed_rounds c errs :
  console_logs (failed_rounds c errs) =
  repeat "Directory does not exist, retrying..." (length errs).
Proof.
  induction errs as [ | e errs IH]; [reflexivity | ].
  rewrite failed_rounds_cons, console_logs_app, IH. reflexivity.
Qed.

(** What the command phase logs and renders: nothing on [console.log],
    on [console.error] the errors of the rejected spawns and exits, and
    as error messages an exit code that is not 0 or such an error. *)
Lemma command_phase_rendered c t (cmds : list event) :
  command_phase c t cmds ->
  console_logs cmds = [] /\
  console_errors cmds = command_errors cmds /\
  forall m, In m (error_messages cmds) ->
    (exists code, m = MsgCommandFailed code /\ code <> 0%Z /\
                  In code (exit_codes cmds)) \/
    (exists e, m = MsgAutoStartFailed e /\ In e (command_errors cmds)).
Proof.
  intros H; inversion H; subst; simpl; (split; [reflexivity | ]);
    (split; [reflexivity | ]); intros m Hm;
    repeat match goal with
    | H : _ \/ _ |- _ => destruct H
    | H : False |- _ => destruct H
    end; subst; eauto 10.
Qed.

(** C10 (as amended): called with a terminal, [executeAutoCommands] never
    throws, it returns normally in all cases.  An error raised by a probe of
    the directory is caught by the retry loop and logged on the console,
    one line for each; it is not rendered to the terminal: the terminal
    gets the error line of the wait when, and only when, all 50 probes have
    failed, and its other error lines are for an exit code that is not 0 or
    for an error of the command sequence.  An error raised by the command
    sequence (a spawn or an awaited exit that is rejected) is caught,
    logged with [console.error] and rendered to the terminal as an error
    message, and ends the run.  Called with the variable [terminal] when
    the cleanup has set it to [null], the function throws. *)
Theorem executeAutoCommands_error_handling c (s : state) :
  (forall t, exists s' tr,
     executeAutoCommands_on c (Some t) s = (Ok tt, s', tr) /\
     console_logs tr =
       repeat "Directory does not exist, retrying..." (length (probe_errors tr)) /\
     length (probe_errors tr) <= 50 /\
     (In MsgDirectoryNotFound (error_messages tr) <->
      length (probe_errors tr) = 50) /\
     (forall m, In m (error_messages tr) ->
        m = MsgDirectoryNotFound \/
        (exists code, m = MsgCommandFailed code /\ code <> 0%Z /\
                      In code (exit_codes tr)) \/
        (exists e, m = MsgAutoStartFailed e /\ In e (command_errors tr))) /\
     (length (probe_errors tr) < 50 -> command_errors tr = [] ->
      (forall code, In code (exit_codes tr) -> code = 0%Z) ->
      error_messages tr = []) /\
     console_errors tr = command_errors tr /\
     (forall e, In e (command_errors tr) ->
        exists pre,
          tr = pre ++ [EvConsoleError e; EvWriteln t (MsgAutoStartFailed e)])) /\
  (exists s',
     executeAutoCommands_on c None s =
       (Throw TypeError, s', [EvConsoleError TypeError])).
Proof.
  split; [ | eexists; apply executeAutoCommands_on_null].
  intros t. cbn [executeAutoCommands_on].
  destruct (executeAutoCommands_trace c t s)
    as (s' & errs & tail & Hrun & _ & _ & Hcases).
  eexists s', _. split; [exact Hrun | ].
  unfold maxRetries in Hcases.
  destruct (failed_rounds_silent c errs) as (_ & _ & Hce & Hec & _).
  destruct Hcases as [(Hl & ->) | (Hl & cmds & -> & Hc)].
  - change (EvWriteln t MsgWaitingForDirectory
            :: failed_rounds c errs ++ [EvWriteln t MsgDirectoryNotFound])
      with ([EvWriteln t MsgWaitingForDirectory]
            ++ failed_rounds c errs ++ [EvWriteln t MsgDirectoryNotFound]).
    rewrite !probe_errors_app, !error_messages_app, !command_errors_app,
      !console_logs_app, !console_errors_app, !exit_codes_app,
      probe_errors_failed_rounds, error_messages_failed_rounds,
      command_errors_failed_rounds, console_logs_failed_rounds, Hce, Hec.
    simpl. rewrite !app_nil_r.
    split; [reflexivity | ]. split; [lia | ].
    split; [split; [intros _; exact Hl | intros _; left; reflexivity] | ].
    split; [intros m [<- | []]; left; reflexivity | ].
    split; [intros Hlt; lia | ].
    split; [reflexivity | intros e []].
  - rewrite ready_trace_split.
    match goal with
    | |- context [?P ++ cmds] =>
        assert (Hlast : forall e, In e (command_errors cmds) ->
                  exists pre,
                    P ++ cmds =
                    pre ++ [EvConsoleError e; EvWriteln t (MsgAutoStartFailed e)])
    end.
    { intros e He. destruct (command_phase_errors _ _ _ _ Hc He) as [pre ->].
      eexists (_ ++ pre). apply app_assoc. }
    destruct (command_phase_quiet _ _ _ Hc) as (_ & _ & Hpe).
    destruct (command_phase_rendered _ _ _ Hc) as (Hcl & Hcerr & Hm).
    rewrite !probe_errors_app, !error_messages_app, !command_errors_app,
      !console_logs_app, !console_errors_app, !exit_codes_app,
      probe_errors_failed_rounds, error_messages_failed_rounds,
      command_errors_failed_rounds, console_logs_failed_rounds, Hce, Hec,
      Hpe, Hcl, Hcerr.
    simpl. rewrite !app_nil_r.
    split; [reflexivity | ]. split; [lia | ].
    split; [ | split; [ | split; [ | split]]].
    + split.
      * intros Hin. apply Hm in Hin.
        destruct Hin as [(code & Hx & _) | (e & Hx & _)]; discriminate.
      * intros Heq. lia.
    + intros m Hin. right. apply Hm in Hin. exact Hin.
    + intros _ Hnone Hcodes.
      destruct (error_messages cmds) as [ | m rest] eqn:Hem; [reflexivity | ].
      destruct (Hm m (or_introl eq_refl)) as [(code & -> & Hne & Hin) | (e & -> & Hin)].
      * contradiction Hne. apply Hcodes. exact Hin.
      * rewrite Hnone in Hin. destruct Hin.
    + reflexivity.
    + intros e He. exact (Hlast e He).
Qed.

(** X7: a run of [executeAutoCommands] writes at most one error message to
    the terminal, and that message is the last line it writes; a run
    without an error message ends with the line that announces that the
    start is complete. *)
Theorem executeAutoCommands_last_line c t (s : state) r s' tr :
  executeAutoCommands c t s = (r, s', tr) ->
  (error_messages tr = [] /\
   last (lines tr) MsgWaitingForDirectory = MsgAutoStartComplete) \/
  (exists m, error_messages tr = [m] /\
             last (lines tr) MsgWaitingForDirectory = m).
Proof.
  intros H. apply executeAutoCommands_shapes in H.
  destruct H as (errs & [-> | (cmds & Hc & ->)]);
    destruct (failed_rounds_silent c errs) as (Hl & _).
  - right. exists MsgDirectoryNotFound.
    rewrite !error_messages_app, !lines_app, error_messages_failed_rounds, Hl.
    split; reflexivity.
  - rewrite !error_messages_app, !lines_app, error_messages_failed_rounds, Hl.
    inversion Hc; subst; simpl;
      first [ left; split; reflexivity
            | right; eexists; split; reflexivity ].
Qed.

(** X8: the output of every process that [executeAutoCommands] spawned is
    piped, into a sink that writes to the terminal given, and nothing else
    is piped. *)
Theorem executeAutoCommands_pipes_every_command c t (s : state) r s' tr :
  executeAutoCommands c t s = (r, s', tr) ->
  piped tr = map (fun p => (p, CbCommandOutput t)) (spawned "pnpm" tr).
Proof.
  intros H. apply executeAutoCommands_shapes in H.
  destruct H as (errs & [-> | (cmds & Hc & ->)]);
    destruct (failed_rounds_silent c errs) as (_ & Hp & _).
  - rewrite !piped_app, !spawned_app, Hp, spawned_failed_rounds. reflexivity.
  - rewrite !piped_app, !spawned_app, Hp, spawned_failed_rounds.
    inversion Hc; subst; reflexivity.
Qed.

(** X9: when [pnpm install] exits with a code that is not 0, the run writes
    one error message, which carries that code, logs nothing with
    [console.error], and has called [spawn] once. *)
Theorem executeAutoCommands_reports_exit_code c t (s : state) r s' tr exitCode :
  executeAutoCommands c t s = (r, s', tr) ->
  In exitCode (exit_codes tr) ->
  exitCode <> 0%Z ->
  error_messages tr = [MsgCommandFailed exitCode] /\
  console_errors tr = [] /\
  spawn_requests tr = [("pnpm", ["install"], react_cwd)].
Proof.
  intros H Hin Hne. apply executeAutoCommands_shapes in H.
  destruct H as (errs & [-> | (cmds & Hc & ->)]);
    destruct (failed_rounds_silent c errs) as (_ & _ & Hce & Hx & Hsr).
  - rewrite !exit_codes_app, Hx in Hin. destruct Hin.
  - rewrite !exit_codes_app, Hx in Hin.
    rewrite !error_messages_app, !console_errors_app, !spawn_requests_app,
      error_messages_failed_rounds, Hce, Hsr.
    inversion Hc; subst; simpl in Hin;
      repeat match goal with
      | H : _ \/ _ |- _ => destruct H
      | H : False |- _ => destruct H
      end; subst; try congruence.
    repeat split; reflexivity.
Qed.

(** X10: every rejected spawn or awaited exit of a run is logged with
    [console.error], once, and nothing else is. *)
Theorem executeAutoCommands_logs_command_errors c t (s : state) r s' tr :
  executeAutoCommands c t s = (r, s', tr) ->
  console_errors tr = command_errors tr /\ length (console_errors tr) <= 1.
Proof.
  intros H. apply executeAutoCommands_shapes in H.
  destruct H as (errs & [-> | (cmds & Hc & ->)]);
    destruct (failed_rounds_silent c errs) as (_ & _ & Hce & _).
  - rewrite !console_errors_app, !command_errors_app, Hce,
      command_errors_failed_rounds. simpl. auto.
  - rewrite !console_errors_app, !command_errors_app, Hce,
      command_errors_failed_rounds.
    inversion Hc; subst; simpl; auto.
Qed.

(** ** The loop over the commands, for any list of commands *)

Lemma run_command_inv c t cmd (s : state) r s' tr :
  run_command c t cmd s = (r, s', tr) ->
  store s' = store s /\ panel s' = panel s /\
  spawn_requests tr = [request_of cmd] /\
  (waitForExit cmd = false -> awaited tr = [] /\ r <> Ok Return) /\
  length (awaited tr) <= 1.
Proof.
  unfold run_command. intros H. inv_run.
  all: try (destruct (waitForExit cmd) eqn:Hw; inv_run).
  all: repeat match goal with
    | H : (if negb (?z =? 0)%Z then _ else _) _ = _ |- _ =>
        destruct (Z.eqb_spec z 0); cbn [negb] in H; subst; inv_run
    end.
  all: simpl; repeat split; auto; try discriminate; try lia;
    intros; try discriminate.
Qed.

(** X11: whatever the list of commands, the loop calls [spawn] on a prefix
    of it, in order and always in [/react]: on the whole list when it runs
    to its end, and it leaves early only after a command whose exit it
    awaited; it awaits at most one exit per command spawned and changes
    neither the store nor the panel. *)
Theorem run_commands_spawns_prefix c t cmds : forall (s : state) r s' tr,
  run_commands c t cmds s = (r, s', tr) ->
  exists k,
    k <= length cmds /\
    spawn_requests tr = map request_of (firstn k cmds) /\
    (r = Ok Continue -> k = length cmds) /\
    (r = Ok Return ->
     exists cmd, In cmd (firstn k cmds) /\ waitForExit cmd = true) /\
    length (awaited tr) <= k /\
    store s' = store s /\ panel s' = panel s.
Proof.
  induction cmds as [ | cmd rest IH]; intros s r s' tr H; simpl in H.
  - inv_run. exists 0. simpl. repeat split; auto. discriminate.
  - apply bind_inv in H.
    destruct H as [(f & s1 & t1 & t2 & H1 & H2 & ->) | (e & H1 & ->)].
    + apply run_command_inv in H1.
      destruct H1 as (Hs1 & Hp1 & Hreq & Hbg & Haw).
      destruct f.
      * apply IH in H2.
        destruct H2 as (k & Hk & Hreq2 & Hcont & Hret & Haw2 & Hs2 & Hp2).
        exists (S k). rewrite spawn_requests_app, awaited_app, length_app, Hreq, Hreq2.
        simpl. repeat split; try lia; try congruence.
        -- intros Hr. rewrite (Hcont Hr). reflexivity.
        -- intros Hr. destruct (Hret Hr) as (cmd' & Hin & Hw). eauto.
      * inv_run. exists 1. rewrite app_nil_r, Hreq. simpl.
        repeat split; auto; try lia; try discriminate.
        intros _. exists cmd. split; [auto | ].
        destruct (waitForExit cmd) eqn:Hw; [reflexivity | ].
        destruct (Hbg eq_refl) as [_ Hno]. exfalso. apply Hno. reflexivity.
    + apply run_command_inv in H1.
      destruct H1 as (Hs1 & Hp1 & Hreq & _ & Haw).
      exists 1. rewrite Hreq. simpl.
      repeat split; auto; try lia; discriminate.
Qed.

(** ** More on the terminal panel *)

(** The runs of [init], by what became of the spawn of the shell: none was
    asked for, it was rejected, or it gave the shell. *)
Lemma init_cases auto (s : state) r s' tr :
  init auto s = (r, s', tr) ->
  spawn_requests tr = [] \/
  (exists c t,
      captured_instance (panel s) = Some c /\
      terminalRef (panel s) = true /\
      terminal (panel s) = None /\
      ((exists o e,
           r = Throw e /\
           tr = terminal_setup t ++ [EvSpawn c "jsh" [] o (Throw e)] /\
           terminal (panel s') = Some t) \/
       (exists o sh s1 tail,
           tr = terminal_setup t
                ++ EvSpawn c "jsh" [] o (Ok sh) :: shell_wiring t sh ++ tail /\
           panel s1 = {| captured_instance := Some c;
                         terminalRef := true;
                         shell := Some sh;
                         terminal := Some t;
                         fitAddon := true;
                         webLinksAddon := true;
                         webglAddon := true |} /\
           (if auto then executeAutoCommands c t s1 = (r, s', tail)
            else tail = [] /\ s' = s1)))).
Proof.
  unfold init. intros H. repeat inv_light.
  all: try (left; reflexivity).
  all: cbn [panel with_panel with_world captured_instance terminalRef terminal] in *.
  all: destruct (captured_instance (panel s)) as [c | ] eqn:Hc;
    [ destruct (terminalRef (panel s)) eqn:Href;
      [ destruct (terminal (panel s)) as [t0 | ] eqn:Ht | ] | ];
    cbn [andb negb is_some] in *; repeat inv_light.
  all: try (left; reflexivity).
  all: cbn [panel with_panel with_world terminal] in *; repeat inv_light.
  all: cbn [executeAutoCommands_on] in *.
  all: right; eexists c, _; do 3 (split; [reflexivity | ]).
  all: try (left; eexists _, _; split; [reflexivity | ]; split; reflexivity).
  all: right; destruct auto; repeat inv_light; do 4 eexists.
  all: (split; [simpl; rewrite ?app_nil_r; reflexivity | ]).
  all: split; [ | first [eassumption | split; reflexivity] ].
  all: simpl; rewrite ?Hc, ?Href; reflexivity.
Qed.

(** X12: [init] calls [spawn] only in a render that has a container, whose
    [div] is mounted and whose terminal does not exist yet; the first thing
    it spawns is then the shell [jsh]. *)
Theorem init_spawns_only_when_ready auto (s : state) r s' tr :
  init auto s = (r, s', tr) ->
  spawn_requests tr <> [] ->
  (exists c, captured_instance (panel s) = Some c) /\
  terminalRef (panel s) = true /\
  terminal (panel s) = None /\
  exists o rest, spawn_requests tr = ("jsh", [], o) :: rest.
Proof.
  intros H Hne. apply init_cases in H.
  destruct H as [Hnil | (c & t & Hc & Href & Ht & Hcases)]; [contradiction | ].
  repeat split; eauto.
  destruct Hcases as [(o & e & _ & -> & _) | (o & sh & s1 & tail & -> & _)];
    rewrite spawn_requests_app; simpl; eauto.
Qed.

(** X13: a shell whose spawn was rejected is not spawned again by the same
    render: the terminal stays created, so that a second run of [init]
    does not call [spawn] at all. *)
Theorem init_does_not_retry_the_shell auto auto' (s : state) r s' tr r2 s2 tr2 :
  init auto s = (r, s', tr) ->
  spawn_requests tr <> [] ->
  spawned "jsh" tr = [] ->
  init auto' s' = (r2, s2, tr2) ->
  (exists e, r = Throw e) /\ spawn_requests tr2 = [].
Proof.
  intros H Hne Hnone H2. apply init_cases in H.
  destruct H as [Hnil | (c & t & _ & _ & _ & Hcases)]; [contradiction | ].
  destruct Hcases as [(o & e & -> & _ & Ht) | (o & sh & s1 & tail & -> & _)].
  - split; [eauto | ].
    apply init_cases in H2.
    destruct H2 as [Hnil | (c2 & t2 & _ & _ & Ht2 & _)]; [assumption | ].
    congruence.
  - change (EvSpawn c "jsh" [] o (Ok sh) :: shell_wiring t sh ++ tail)
      with ([EvSpawn c "jsh" [] o (Ok sh)] ++ shell_wiring t sh ++ tail) in Hnone.
    rewrite !spawned_app in Hnone. simpl in Hnone. discriminate.
Qed.

(** The panel after a run of [init] that spawned the shell [sh]. *)
Lemma init_spawned_panel auto (s : state) r s' tr sh :
  init auto s = (r, s', tr) ->
  In sh (spawned "jsh" tr) ->
  exists c t,
    captured_instance (panel s) = Some c /\
    panel s' = {| captured_instance := Some c;
                  terminalRef := terminalRef (panel s);
                  shell := Some sh;
                  terminal := Some t;
                  fitAddon := true;
                  webLinksAddon := true;
                  webglAddon := true |} /\
    In (EvAddEventListener "resize" CbWindowResize) tr.
Proof.
  intros H Hin.
  destruct (init_spawns_shell _ _ _ _ _ _ H Hin)
    as (c0 & t0 & size & s0 & tail0 & _ & _ & Htr & _ & _ & Hsh0 & _ & Hp0 & _).
  apply init_cases in H.
  destruct H as [Hnil | (c & t & Hc & Href & Ht & Hcases)].
  - rewrite Htr, spawn_requests_app in Hnil. simpl in Hnil.
    destruct (spawn_requests (terminal_setup t0)); discriminate.
  - destruct Hcases as [(o & e & _ & -> & _) | (o & sh1 & s1 & tail & -> & Hp1 & Hauto)].
    + rewrite spawned_app in Hin. simpl in Hin. destruct Hin.
    + assert (Hp : panel s' = panel s1).
      { destruct auto.
        - apply executeAutoCommands_facts in Hauto. tauto.
        - destruct Hauto as (_ & ->). reflexivity. }
      exists c, t. split; [assumption | ]. split.
      * rewrite Hp, Hp1, Href.
        assert (Hsh : shell (panel s') = Some sh) by congruence.
        rewrite Hp, Hp1 in Hsh. simpl in Hsh. inversion Hsh. reflexivity.
      * apply in_or_app. right. right. left. reflexivity.
Qed.

Lemma resize_run (s : state) sh :
  fitAddon (panel s) = true ->
  shell (panel s) = Some sh ->
  let w := react EvFit (world s) in
  let cols := option_map (fun t => terminal_cols t w) (terminal (panel s)) in
  let rows := option_map (fun t => terminal_rows t w) (terminal (panel s)) in
  run_trace terminalResize s = [EvFit; EvResize sh cols rows] /\
  run_trace windowResizeHandler s = [EvFit; EvResize sh cols rows].
Proof.
  intros Hf Hsh.
  unfold run_trace, terminalResize, windowResizeHandler, bind, get_panel.
  rewrite Hf, Hsh. simpl. split; reflexivity.
Qed.

(** X14: once [init] has spawned the shell, [terminalResize] reaches it:
    the terminal is refit and the shell resized to the columns and rows
    that the terminal of this render has after the refit. *)
Theorem init_then_terminalResize auto (s : state) r s' tr sh :
  init auto s = (r, s', tr) ->
  In sh (spawned "jsh" tr) ->
  exists t,
    terminal (panel s') = Some t /\
    let w := react EvFit (world s') in
    run_trace terminalResize s' =
      [EvFit; EvResize sh (Some (terminal_cols t w)) (Some (terminal_rows t w))].
Proof.
  intros H Hin.
  destruct (init_spawned_panel _ _ _ _ _ _ H Hin) as (c & t & _ & Hp & _).
  exists t. rewrite Hp. split; [reflexivity | ].
  destruct (resize_run s' sh) as [Hr _]; try (rewrite Hp; reflexivity).
  rewrite Hr, Hp. reflexivity.
Qed.

(** X15: the cleanup after [init] removes the root of the container of the
    render and kills the shell that [init] spawned; the window resize
    handler that [init] registered is not removed and still finds the fit
    addon and the shell: fired after the cleanup, it refits and resizes
    the killed shell, with columns and rows undefined. *)
Theorem resize_handler_outlives_cleanup auto (s : state) r s' tr sh :
  init auto s = (r, s', tr) ->
  In sh (spawned "jsh" tr) ->
  In (EvAddEventListener "resize" CbWindowResize) tr /\
  exists c,
    captured_instance (panel s) = Some c /\
    run_trace cleanup s' =
      [EvRm c "/" true; EvKill sh;
       EvSet {| set_webContainerInstance := None; set_isInitialized := None;
                set_url := Some "" |}] /\
    run_trace (run_callback CbWindowResize NoArgument) (run_state cleanup s') =
      [EvFit; EvResize sh None None].
Proof.
  intros H Hin.
  destruct (init_spawned_panel _ _ _ _ _ _ H Hin) as (c & t & Hc & Hp & Hl).
  split; [assumption | ]. exists c. split; [assumption | ].
  destruct (cleanup_run s') as [w Hrun].
  unfold run_trace at 1. unfold run_state. rewrite Hrun, Hp. simpl.
  split; [reflexivity | ].
  match goal with
  | |- run_trace windowResizeHandler ?st = _ =>
      destruct (resize_run st sh) as [_ Hr]; [reflexivity | reflexivity | ];
      rewrite Hr
  end.
  reflexivity.
Qed.

(** X16: after the cleanup a chunk of the output of the shell is dropped,
    [terminal?.write] finding no terminal, while a data event of the
    terminal is still written to the input of the shell. *)
Theorem streams_after_cleanup (s : state) data sh :
  run_trace (run_callback CbShellOutput (Chunk data)) (run_state cleanup s) = [] /\
  run_trace (run_callback (CbTerminalData sh) (Chunk data)) (run_state cleanup s)
  = [EvInputWrite sh data].
Proof.
  destruct (cleanup_run s) as [w Hrun].
  unfold run_state. rewrite Hrun. split; reflexivity.
Qed.

(** X17: [init] never changes the store, whichever copy of the component
    runs and however the run ends; neither does [executeAutoCommands],
    which leaves the variables of the panel alone as well. *)
Theorem init_leaves_the_store auto (s : state) r s' tr :
  init auto s = (r, s', tr) ->
  store s' = store s /\
  (forall c t (s0 : state) r0 s1 tr0,
     executeAutoCommands c t s0 = (r0, s1, tr0) ->
     store s1 = store s0 /\ panel s1 = panel s0).
Proof.
  intros H. split.
  - apply init_inv in H.
    destruct H as [(c & t & size & sh & s1 & tail & _ & Hauto & _ & Hs & _)
                  | (_ & _ & _ & _ & Hs)]; [ | assumption].
    destruct auto.
    + apply executeAutoCommands_facts in Hauto.
      destruct Hauto as (_ & Hs' & _). congruence.
    + destruct Hauto as (_ & _ & ->). assumption.
  - intros c t s0 r0 s1 tr0 H0. apply executeAutoCommands_facts in H0. tauto.
Qed.

(** ** Calls of [initWebContainer] after a reset or a failure *)

(** X18: lowering the flag with [setInitialized(false)] does not make a
    store that holds an instance boot again: the next call of
    [initWebContainer] boots nothing and, when it completes, has put the
    flag back with the same instance. *)
Theorem flag_reset_does_not_reboot projectId c (s : state) r s' tr :
  webContainerInstance (store s) = Some c ->
  bind (setInitialized false) (fun _ => initWebContainer projectId) s = (r, s', tr) ->
  boots tr = [] /\
  webContainerInstance (store s') = Some c /\
  (r = Ok tt -> isInitialized (store s') = true).
Proof.
  intros Hc H. apply bind_inv in H.
  destruct H as [(a & s1 & t1 & t2 & H1 & H2 & ->) | (e & H1 & ->)];
    unfold setInitialized in H1; apply set_inv in H1;
    destruct H1 as (Hr & -> & ->); [ | discriminate].
  assert (Hc1 : webContainerInstance
                  (store (with_store s
                            (merge {| set_webContainerInstance := None;
                                      set_isInitialized := Some false;
                                      set_url := None |} (store s)))) = Some c)
    by (simpl; assumption).
  assert (Hn : needs_boot
                 (store (with_store s
                           (merge {| set_webContainerInstance := None;
                                     set_isInitialized := Some false;
                                     set_url := None |} (store s)))) = false)
    by (unfold needs_boot; rewrite Hc1; apply andb_false_r).
  pose proof (initWebContainer_boot_calls _ _ _ _ _ H2) as Hb.
  rewrite Hn in Hb. simpl in Hb. apply boots_nil_of_length in Hb.
  rewrite boots_app, Hb.
  destruct (initWebContainer_keeps _ _ _ _ _ H2) as [_ Hk].
  repeat split; auto.
  intros ->. apply initWebContainer_completes in H2. tauto.
Qed.


End Properties.

(** * Concrete runs *)

(** C1, counterexample: two calls made one after the other on the store as
    created both complete, and leave two 'server-ready' listeners on
    container 0, not one. *)
Lemma two_calls_register_two_listeners :
  run_result (initWebContainer_calls [None; Some "demo"]) sim_start = Ok tt /\
  listeners_on "server-ready"
    (run_trace (initWebContainer_calls [None; Some "demo"]) sim_start) = [0; 0] /\
  length (listeners_on "server-ready"
            (run_trace (initWebContainer_calls [None; Some "demo"]) sim_start)) <> 1.
Proof. vm_compute. repeat split; discriminate. Qed.

(** Three calls on the store as created: three listeners on container 0. *)
Lemma initWebContainer_calls_listeners_witness :
  listeners_on "server-ready"
    (run_trace (initWebContainer_calls [None; Some "demo"; None]) sim_start)
  = repeat 0 3.
Proof.
  refine (initWebContainer_calls_listeners [None; Some "demo"; None] sim_start
            (run_state (initWebContainer_calls [None; Some "demo"; None]) sim_start)
            (run_trace (initWebContainer_calls [None; Some "demo"; None]) sim_start)
            _).
  vm_compute. reflexivity.
Defined.

(** [/react] appears at the third probe. *)
Lemma executeAutoCommands_waits_for_directory_witness :
  length (probes (run_trace (executeAutoCommands 7 0) (sim_panel_state 2 0 false)))
  <= 50.
Proof.
  destruct (executeAutoCommands_waits_for_directory 7 0 (sim_panel_state 2 0 false)
              (Ok tt)
              (run_state (executeAutoCommands 7 0) (sim_panel_state 2 0 false))
              (run_trace (executeAutoCommands 7 0) (sim_panel_state 2 0 false)))
    as (errs & found & _ & Hle & _).
  - vm_compute. reflexivity.
  - exact Hle.
Defined.

(** [/react] appears at the third probe and both commands start. *)
Lemma executeAutoCommands_runs_commands_witness :
  run_result (executeAutoCommands 7 0) (sim_panel_state 2 0 false) = Ok tt.
Proof.
  refine (proj1 (executeAutoCommands_runs_commands 7 0 (sim_panel_state 2 0 false)
                   (run_result (executeAutoCommands 7 0) (sim_panel_state 2 0 false))
                   (run_state (executeAutoCommands 7 0) (sim_panel_state 2 0 false))
                   (run_trace (executeAutoCommands 7 0) (sim_panel_state 2 0 false))
                   _ _)).
  - vm_compute. reflexivity.
  - vm_compute. repeat (try (left; reflexivity); right).
Defined.






(** C5, counterexample: the panel over container 7 spawns shell 1 and the
    cleanup runs; the chunks that the shell produces afterwards are not
    written to the terminal.  And when the cleanup runs while the spawn is
    awaited, shell 1 is spawned and its output piped, but no handler is
    registered for the data of the terminal: one stream is wired, not
    two. *)
Lemma chunks_dropped_after_cleanup :
  (spawned "jsh" (run_trace (init false) (sim_panel_state 0 0 false)) = [1] /\
   run_trace (deliver CbShellOutput ["a"; "b"])
             (run_state cleanup (run_state (init false) (sim_panel_state 0 0 false)))
   = []) /\
  (spawned "jsh" (run_trace (init_with_cleanup_during_spawn false)
                            (sim_panel_state 0 0 false)) = [1] /\
   wirings (run_trace (init_with_cleanup_during_spawn false)
                      (sim_panel_state 0 0 false))
   = [EvPipeTo 1 CbShellOutput]).
Proof. vm_compute. repeat split. Qed.

(** The panel over container 7: terminal 0, shell 1; two chunks of the
    shell are written to terminal 0. *)
Lemma shell_streams_wired_witness :
  (exists tail,
     wirings (run_trace (init_after_spawn true 7 1)
                        (run_state init_until_spawn (sim_panel_state 2 0 false))) =
     EvPipeTo 1 CbShellOutput :: [EvOnData 0 (CbTerminalData 1)] ++ wirings tail) /\
  (exists t,
     run_trace (deliver CbShellOutput ["a"; "b"])
               (run_state (init true) (sim_panel_state 2 0 false))
     = map (EvTermWrite t) ["a"; "b"]).
Proof.
  split.
  - destruct (proj1 shell_streams_wired true 7 1
                (run_state init_until_spawn (sim_panel_state 2 0 false))
                (run_result (init_after_spawn true 7 1)
                   (run_state init_until_spawn (sim_panel_state 2 0 false)))
                (run_state (init_after_spawn true 7 1)
                   (run_state init_until_spawn (sim_panel_state 2 0 false)))
                (run_trace (init_after_spawn true 7 1)
                   (run_state init_until_spawn (sim_panel_state 2 0 false))))
      as (tail & Hw & _).
    + vm_compute. reflexivity.
    + exists tail. exact Hw.
  - destruct (proj1 (proj2 shell_streams_wired) true (sim_panel_state 2 0 false)
                (run_result (init true) (sim_panel_state 2 0 false))
                (run_state (init true) (sim_panel_state 2 0 false))
                (run_trace (init true) (sim_panel_state 2 0 false)) 1)
      as (t & tail & _ & _ & _ & _ & Hsink & _).
    + vm_compute. reflexivity.
    + vm_compute. left. reflexivity.
    + exists t. apply Hsink. vm_compute. left. reflexivity.
Defined.

(** The first call on the store as created, for the project [demo], and
    the panel over container 7. *)
Lemma lifecycle_sequencing_witness :
  isInitialized (store (run_state (initWebContainer (Some "demo")) sim_start)) = true /\
  (exists c t size tail,
     run_trace (init true) (sim_panel_state 2 0 false) =
     terminal_setup t
     ++ EvSpawn c "jsh" [] {| cwd := None; terminal_size := Some size |} (Ok 1)
        :: shell_wiring t 1 ++ tail) /\
  wirings (run_trace init_until_spawn (sim_panel_state 2 0 false)) = [].
Proof.
  split; [ | split].
  - destruct (proj1 lifecycle_sequencing (Some "demo") sim_start
                (run_state (initWebContainer (Some "demo")) sim_start)
                (run_trace (initWebContainer (Some "demo")) sim_start))
      as (info & c & w1 & w2 & w4 & _ & _ & _ & _ & _ & _ & Hi).
    + reflexivity.
    + reflexivity.
    + vm_compute. reflexivity.
    + exact Hi.
  - assert (Hrun : init true (sim_panel_state 2 0 false) =
                   (run_result (init true) (sim_panel_state 2 0 false),
                    run_state (init true) (sim_panel_state 2 0 false),
                    run_trace (init true) (sim_panel_state 2 0 false)))
      by (vm_compute; reflexivity).
    destruct (proj2 (proj1 (proj2 lifecycle_sequencing) _ _ _ _ _ Hrun) 1)
      as (c & t & size & s1 & tail & Htr & _).
    + vm_compute. left. reflexivity.
    + exists c, t, size, tail. exact Htr.
  - refine (proj1 (proj2 (proj2 lifecycle_sequencing) (sim_panel_state 2 0 false)
                     (run_result init_until_spawn (sim_panel_state 2 0 false))
                     (run_state init_until_spawn (sim_panel_state 2 0 false))
                     (run_trace init_until_spawn (sim_panel_state 2 0 false)) _)).
    vm_compute. reflexivity.
Defined.

(** C10, counterexample: the directory is missing at the first probe and
    there at the second; the error of the first probe is raised during the
    wait, the run completes, and no error message is written to the
    terminal.  And when the cleanup runs while the spawn of the shell is
    awaited, [init] calls [executeAutoCommands] with [null]: the call
    throws, and nothing is written to a terminal. *)
Lemma probe_error_not_rendered_null_terminal_throws :
  (run_result (executeAutoCommands 7 0) (sim_panel_state 1 0 false) = Ok tt /\
   probe_errors (run_trace (executeAutoCommands 7 0) (sim_panel_state 1 0 false))
   = ["ENOENT"] /\
   error_messages (run_trace (executeAutoCommands 7 0) (sim_panel_state 1 0 false))
   = []) /\
  (run_result (init_with_cleanup_during_spawn true) (sim_panel_state 0 0 false)
   = Throw TypeError /\
   lines (run_trace (init_with_cleanup_during_spawn true) (sim_panel_state 0 0 false))
   = []).
Proof. vm_compute. repeat split. Qed.

(** [/react] appears at the second probe: one line on the console, no
    error message. *)
Lemma executeAutoCommands_error_handling_witness :
  exists s' tr,
    executeAutoCommands_on 7 (Some 0) (sim_panel_state 1 0 false) = (Ok tt, s', tr) /\
    console_logs tr =
      repeat "Directory does not exist, retrying..." (length (probe_errors tr)).
Proof.
  destruct (proj1 (executeAutoCommands_error_handling 7 (sim_panel_state 1 0 false)) 0)
    as (s' & tr & Hrun & Hlogs & _).
  exists s', tr. split; [exact Hrun | exact Hlogs].
Defined.

(** * Concrete runs of the further properties *)

(** The first write is rejected: the call throws after the boot and the
    store is the one created. *)
Lemma initWebContainer_failure_is_atomic_witness :
  store (run_state (initWebContainer None) faulty_start) = initial_store.
Proof.
  refine (proj1 (initWebContainer_failure_is_atomic None faulty_start "write failed"
                   (run_state (initWebContainer None) faulty_start)
                   (run_trace (initWebContainer None) faulty_start) _)).
  vm_compute. reflexivity.
Defined.

Lemma initWebContainer_keeps_url_and_panel_witness :
  url (store (run_state (initWebContainer (Some "demo")) (sim_panel_state 0 0 false)))
  = "".
Proof.
  refine (proj1 (initWebContainer_keeps_url_and_panel (Some "demo")
                   (sim_panel_state 0 0 false) (Ok tt)
                   (run_state (initWebContainer (Some "demo")) (sim_panel_state 0 0 false))
                   (run_trace (initWebContainer (Some "demo")) (sim_panel_state 0 0 false))
                   _)).
  vm_compute. reflexivity.
Defined.

Lemma initWebContainer_writes_into_stored_instance_witness :
  Some 0 = webContainerInstance (store (run_state (initWebContainer None) sim_start)).
Proof.
  refine (initWebContainer_writes_into_stored_instance None sim_start
            (run_state (initWebContainer None) sim_start)
            (run_trace (initWebContainer None) sim_start) _ (Some 0) _).
  - vm_compute. reflexivity.
  - vm_compute. left. reflexivity.
Defined.

Lemma marked_initialized_never_boots_witness :
  boots (run_trace (bind (setInitialized true)
                         (fun _ => initWebContainer_calls [None; Some "demo"]))
                   sim_start) = [].
Proof.
  refine (proj1 (marked_initialized_never_boots [None; Some "demo"] sim_start (Ok tt)
                   (run_state (bind (setInitialized true)
                                 (fun _ => initWebContainer_calls [None; Some "demo"]))
                              sim_start)
                   (run_trace (bind (setInitialized true)
                                 (fun _ => initWebContainer_calls [None; Some "demo"]))
                              sim_start) eq_refl _)).
  vm_compute. reflexivity.
Defined.

Lemma cleanup_then_initWebContainer_witness :
  boots (run_trace (bind cleanup (fun _ => initWebContainer (Some "demo")))
                   (sim_panel_state 0 0 false)) = [].
Proof.
  refine (proj1 (cleanup_then_initWebContainer (Some "demo") 7
                   (sim_panel_state 0 0 false)
                   (run_state (bind cleanup (fun _ => initWebContainer (Some "demo")))
                              (sim_panel_state 0 0 false))
                   (run_trace (bind cleanup (fun _ => initWebContainer (Some "demo")))
                              (sim_panel_state 0 0 false)) eq_refl _)).
  vm_compute. reflexivity.
Defined.

Lemma server_ready_url_survives_init_witness :
  url (store (run_state
                (bind (run_callback CbServerReady (ServerReady 3000 "https://preview"))
                      (fun _ => initWebContainer None))
                sim_start)) = "https://preview".
Proof.
  refine (server_ready_url_survives_init CbServerReady 3000 "https://preview" None
            sim_start (Ok tt)
            (run_state
               (bind (run_callback CbServerReady (ServerReady 3000 "https://preview"))
                     (fun _ => initWebContainer None)) sim_start)
            (run_trace
               (bind (run_callback CbServerReady (ServerReady 3000 "https://preview"))
                     (fun _ => initWebContainer None)) sim_start)
            (or_introl eq_refl) _).
  vm_compute. reflexivity.
Defined.

(** [pnpm install] exits with code 3. *)
Lemma executeAutoCommands_last_line_witness :
  length (error_messages
            (run_trace (executeAutoCommands 7 0) (sim_panel_state 1 3 false))) <= 1.
Proof.
  destruct (executeAutoCommands_last_line 7 0 (sim_panel_state 1 3 false) (Ok tt)
              (run_state (executeAutoCommands 7 0) (sim_panel_state 1 3 false))
              (run_trace (executeAutoCommands 7 0) (sim_panel_state 1 3 false)))
    as [[He _] | (m & He & _)].
  - vm_compute. reflexivity.
  - rewrite He. simpl. lia.
  - rewrite He. simpl. lia.
Defined.

Lemma executeAutoCommands_pipes_every_command_witness :
  piped (run_trace (executeAutoCommands 7 0) (sim_panel_state 1 0 false))
  = [(0, CbCommandOutput 0); (1, CbCommandOutput 0)].
Proof.
  refine (executeAutoCommands_pipes_every_command 7 0 (sim_panel_state 1 0 false) (Ok tt)
            (run_state (executeAutoCommands 7 0) (sim_panel_state 1 0 false))
            (run_trace (executeAutoCommands 7 0) (sim_panel_state 1 0 false)) _).
  vm_compute. reflexivity.
Defined.

Lemma executeAutoCommands_reports_exit_code_witness :
  error_messages (run_trace (executeAutoCommands 7 0) (sim_panel_state 1 3 false))
  = [MsgCommandFailed 3].
Proof.
  refine (proj1 (executeAutoCommands_reports_exit_code 7 0 (sim_panel_state 1 3 false)
                   (Ok tt)
                   (run_state (executeAutoCommands 7 0) (sim_panel_state 1 3 false))
                   (run_trace (executeAutoCommands 7 0) (sim_panel_state 1 3 false))
                   3%Z _ _ _)).
  - vm_compute. reflexivity.
  - vm_compute. left. reflexivity.
  - discriminate.
Defined.

(** The spawn of [pnpm install] is rejected. *)
Lemma executeAutoCommands_logs_command_errors_witness :
  length (console_errors
            (run_trace (executeAutoCommands 7 0) (sim_panel_state 0 0 true))) <= 1.
Proof.
  refine (proj2 (executeAutoCommands_logs_command_errors 7 0 (sim_panel_state 0 0 true)
                   (Ok tt)
                   (run_state (executeAutoCommands 7 0) (sim_panel_state 0 0 true))
                   (run_trace (executeAutoCommands 7 0) (sim_panel_state 0 0 true))
                   _)).
  vm_compute. reflexivity.
Defined.

Lemma run_commands_spawns_prefix_witness :
  exists k,
    spawn_requests (run_trace (run_commands 7 0 commands) (sim_panel_state 0 3 false))
    = map request_of (firstn k commands).
Proof.
  destruct (run_commands_spawns_prefix 7 0 commands (sim_panel_state 0 3 false)
              (Ok Return)
              (run_state (run_commands 7 0 commands) (sim_panel_state 0 3 false))
              (run_trace (run_commands 7 0 commands) (sim_panel_state 0 3 false)))
    as (k & _ & Hreq & _).
  - vm_compute. reflexivity.
  - exists k. exact Hreq.
Defined.

Lemma init_spawns_only_when_ready_witness :
  terminal (panel (sim_panel_state 0 0 false)) = None.
Proof.
  refine (proj1 (proj2 (proj2
            (init_spawns_only_when_ready true (sim_panel_state 0 0 false) (Ok tt)
               (run_state (init true) (sim_panel_state 0 0 false))
               (run_trace (init true) (sim_panel_state 0 0 false)) _ _)))).
  - vm_compute. reflexivity.
  - vm_compute. discriminate.
Defined.

(** The spawn of the shell is rejected; a second run of [init] spawns
    nothing. *)
Lemma init_does_not_retry_the_shell_witness :
  spawn_requests (run_trace (init true) (run_state (init true) faulty_panel_state)) = [].
Proof.
  refine (proj2 (init_does_not_retry_the_shell true true faulty_panel_state
                   (Throw "no shell")
                   (run_state (init true) faulty_panel_state)
                   (run_trace (init true) faulty_panel_state)
                   (run_result (init true) (run_state (init true) faulty_panel_state))
                   (run_state (init true) (run_state (init true) faulty_panel_state))
                   (run_trace (init true) (run_state (init true) faulty_panel_state))
                   _ _ _ _)).
  - vm_compute. reflexivity.
  - vm_compute. discriminate.
  - vm_compute. reflexivity.
  - vm_compute. reflexivity.
Defined.

Lemma init_then_terminalResize_witness :
  exists t,
    run_trace terminalResize (run_state (init false) (sim_panel_state 0 0 false))
    = [EvFit; EvResize 1 (Some (terminal_cols t (react EvFit (world (run_state (init false) (sim_panel_state 0 0 false))))))
                         (Some (terminal_rows t (react EvFit (world (run_state (init false) (sim_panel_state 0 0 false))))))].
Proof.
  destruct (init_then_terminalResize false (sim_panel_state 0 0 false) (Ok tt)
              (run_state (init false) (sim_panel_state 0 0 false))
              (run_trace (init false) (sim_panel_state 0 0 false)) 1)
    as (t & _ & Hr).
  - vm_compute. reflexivity.
  - vm_compute. left. reflexivity.
  - exists t. exact Hr.
Defined.

Lemma resize_handler_outlives_cleanup_witness :
  In (EvAddEventListener "resize" CbWindowResize)
     (run_trace (init true) (sim_panel_state 0 0 false)).
Proof.
  refine (proj1 (resize_handler_outlives_cleanup true (sim_panel_state 0 0 false) (Ok tt)
                   (run_state (init true) (sim_panel_state 0 0 false))
                   (run_trace (init true) (sim_panel_state 0 0 false)) 1 _ _)).
  - vm_compute. reflexivity.
  - vm_compute. left. reflexivity.
Defined.

Lemma init_leaves_the_store_witness :
  store (run_state (init true) (sim_panel_state 2 0 false))
  = store (sim_panel_state 2 0 false).
Proof.
  refine (proj1 (init_leaves_the_store true (sim_panel_state 2 0 false) (Ok tt)
                   (run_state (init true) (sim_panel_state 2 0 false))
                   (run_trace (init true) (sim_panel_state 2 0 false)) _)).
  vm_compute. reflexivity.
Defined.

Lemma flag_reset_does_not_reboot_witness :
  boots (run_trace (bind (setInitialized false) (fun _ => initWebContainer None))
                   (sim_panel_state 0 0 false)) = [].
Proof.
  refine (proj1 (flag_reset_does_not_reboot None 7 (sim_panel_state 0 0 false) (Ok tt)
                   (run_state (bind (setInitialized false) (fun _ => initWebContainer None))
                              (sim_panel_state 0 0 false))
                   (run_trace (bind (setInitialized false) (fun _ => initWebContainer None))
                              (sim_panel_state 0 0 false)) eq_refl _)).
  vm_compute. reflexivity.
Defined.

